(** * RenCpp: scalar values, host-native failures and the standard IO device

    A shallow embedding of three parts of the binding:

    - the scalar constructors and extraction operators of [ren::Value] and
      its refined views (Logic, Character, Integer, Float);
    - the exception classes of [error.hpp] (evaluation_error, has_no_value,
      evaluation_cancelled, exit_command);
    - the device commands of [rebol-stdio.cpp].

    C++ integers are [Z] with their wrap-around written out, bit patterns are
    handled with [Z.land], [Z.lor], [Z.ldiff] and [Z.testbit], a function that
    can throw returns an [outcome], and a function that mutates an object
    receives the object and returns its new state. *)

From Stdlib Require Import ZArith String Ascii List Bool Lia.
From Stdlib Require Import DecimalString DecimalPos DecimalZ.
From stdpp Require Import base list.
Import ListNotations.

Local Open Scope Z_scope.

(* ===================================================================== *)
(** ** Fixed-width C++ integers                                            *)
(* ===================================================================== *)

Module CInt.

(** Conversion to an unsigned integer type of [w] bits. *)
Definition to_unsigned (w : Z) (x : Z) : Z := Z.land x (Z.ones w).

(** Conversion to a signed integer type of [w] bits (two's complement). *)
Definition to_signed (w : Z) (x : Z) : Z :=
  let u := to_unsigned w x in
  if Z.testbit u (w - 1) then u - 2 ^ w else u.

(** Contextual conversion of an integer to [bool]. *)
Definition to_bool (x : Z) : bool := negb (x =? 0).

(** [int] and [REBINT] are 32 bits wide, [REBI64] is 64, [REBUNI] is 16,
    [char] is a signed byte. *)
Definition int_range (n : Z) : Prop := - 2 ^ 31 <= n < 2 ^ 31.
Definition char_range (c : Z) : Prop := - 2 ^ 7 <= c < 2 ^ 7.
Definition REBUNI_range (u : Z) : Prop := 0 <= u < 2 ^ 16.
Definition bits64_range (d : Z) : Prop := 0 <= d < 2 ^ 64.

End CInt.

(* ===================================================================== *)
(** ** The runtime's value cell                                            *)
(* ===================================================================== *)

Module Cell.
Import CInt.

(** Modelled from the spec: the datatype discriminants of the runtime's
    cell header.  The runtime's headers are not among the sources; the
    kinds the binding names are listed, every other datatype is
    [REB_OTHER]. *)
Inductive Reb_Kind : Type :=
| REB_END
| REB_UNSET
| REB_NONE
| REB_LOGIC
| REB_INTEGER
| REB_DECIMAL
| REB_CHAR
| REB_DATE
| REB_ERROR
| REB_OTHER (n : nat).

Definition Reb_Kind_eqb (a b : Reb_Kind) : bool :=
  match a, b with
  | REB_END, REB_END | REB_UNSET, REB_UNSET | REB_NONE, REB_NONE
  | REB_LOGIC, REB_LOGIC | REB_INTEGER, REB_INTEGER
  | REB_DECIMAL, REB_DECIMAL | REB_CHAR, REB_CHAR | REB_DATE, REB_DATE
  | REB_ERROR, REB_ERROR => true
  | REB_OTHER n, REB_OTHER m => Nat.eqb n m
  | _, _ => false
  end.

(** Modelled from the spec: the cell is a tagged union, a type
    discriminant plus a payload of inline scalar bits.  [data] is the bit
    pattern of the first eight bytes of the payload union, read as a
    little-endian unsigned number; the union members [logic] (32 bits),
    [integer] (64 bits), [decimal] (64 bits) and [uchar] (16 bits) all
    start at its first byte. *)
Record REBVAL : Type := mkREBVAL {
  header : Reb_Kind;
  data : Z
}.

(** Modelled from the spec: the cell macros of the runtime's headers, which
    are not among the sources.  [VAL_TYPE(v)] reads the discriminant and
    [VAL_SET(v, t)] overwrites the header and leaves the payload alone. *)
Definition VAL_TYPE (v : REBVAL) : Reb_Kind := header v.

Definition VAL_SET (v : REBVAL) (t : Reb_Kind) : REBVAL :=
  {| header := t; data := data v |}.

(** Modelled from the spec: an assignment to a payload member of [w]
    bits.  It replaces the low [w] bits of the payload and keeps the rest. *)
Definition store (w : Z) (v : REBVAL) (x : Z) : REBVAL :=
  {| header := header v;
     data := Z.lor (Z.ldiff (data v) (Z.ones w)) (Z.land x (Z.ones w)) |}.

(** Modelled from the spec: the type tests [IS_...(v)], each of which
    compares [VAL_TYPE(v)] with one discriminant. *)
Definition IS_UNSET (v : REBVAL) : bool := Reb_Kind_eqb (VAL_TYPE v) REB_UNSET.
Definition IS_NONE (v : REBVAL) : bool := Reb_Kind_eqb (VAL_TYPE v) REB_NONE.
Definition IS_LOGIC (v : REBVAL) : bool := Reb_Kind_eqb (VAL_TYPE v) REB_LOGIC.
Definition IS_CHAR (v : REBVAL) : bool := Reb_Kind_eqb (VAL_TYPE v) REB_CHAR.
Definition IS_INTEGER (v : REBVAL) : bool := Reb_Kind_eqb (VAL_TYPE v) REB_INTEGER.
Definition IS_DECIMAL (v : REBVAL) : bool := Reb_Kind_eqb (VAL_TYPE v) REB_DECIMAL.
Definition IS_DATE (v : REBVAL) : bool := Reb_Kind_eqb (VAL_TYPE v) REB_DATE.
Definition IS_ERROR (v : REBVAL) : bool := Reb_Kind_eqb (VAL_TYPE v) REB_ERROR.

(** Modelled from the spec: [SET_UNSET(v)] and [SET_NONE(v)] set the
    header; these datatypes have no payload. *)
Definition SET_UNSET (v : REBVAL) : REBVAL := VAL_SET v REB_UNSET.
Definition SET_NONE (v : REBVAL) : REBVAL := VAL_SET v REB_NONE.

(** Modelled from the spec: [VAL_LOGIC(v)] is the 32-bit member
    [data.logic]; [SET_LOGIC(v, n)] is
    [VAL_SET(v, REB_LOGIC), VAL_LOGIC(v) = ((n) != 0)]. *)
Definition VAL_LOGIC (v : REBVAL) : Z := to_unsigned 32 (data v).
Definition SET_LOGIC (v : REBVAL) (n : Z) : REBVAL :=
  store 32 (VAL_SET v REB_LOGIC) (Z.b2z (to_bool n)).

(** Modelled from the spec: [VAL_INT64(v)] is the 64-bit member
    [data.integer]; [VAL_INT32(v)] is [(REBINT)(data.integer)];
    [SET_INTEGER(v, n)] is [VAL_SET(v, REB_INTEGER), VAL_INT64(v) = (n)]. *)
Definition VAL_INT64 (v : REBVAL) : Z := to_signed 64 (data v).
Definition VAL_INT32 (v : REBVAL) : Z := to_signed 32 (VAL_INT64 v).
Definition SET_INTEGER (v : REBVAL) (n : Z) : REBVAL :=
  store 64 (VAL_SET v REB_INTEGER) n.

(** Modelled from the spec: [VAL_DECIMAL(v)] is the 64-bit member
    [data.decimal] and [SET_DECIMAL(v, n)] is
    [VAL_SET(v, REB_DECIMAL), VAL_DECIMAL(v) = (n)]; a [double] is carried
    as its IEEE-754 bit pattern. *)
Definition VAL_DECIMAL (v : REBVAL) : Z := to_unsigned 64 (data v).
Definition SET_DECIMAL (v : REBVAL) (d : Z) : REBVAL :=
  store 64 (VAL_SET v REB_DECIMAL) d.

(** Modelled from the spec: [VAL_CHAR(v)] is the 16-bit member
    [data.uchar]; [SET_CHAR(v, n)] is
    [VAL_SET(v, REB_CHAR), VAL_CHAR(v) = (REBUNI)(n)]. *)
Definition VAL_CHAR (v : REBVAL) : Z := to_unsigned 16 (data v).
Definition SET_CHAR (v : REBVAL) (n : Z) : REBVAL :=
  store 16 (VAL_SET v REB_CHAR) n.

End Cell.

(* ===================================================================== *)
(** ** Host-native failures and the outcome of a call                      *)
(* ===================================================================== *)

Module Host.

(** The result of running a C++ function: it returns, an exception leaves
    it, or the process cannot continue. *)
Inductive outcome (E A : Type) : Type :=
| Returned (a : A)
| Thrown (e : E)
| Fatal.
Arguments Returned {E A} a.
Arguments Thrown {E A} e.
Arguments Fatal {E A}.

(** A function with effects on a state [S] that may throw an [E]. *)
Definition M (S E A : Type) : Type := S -> outcome E A * S.

Definition ret {S E A} (a : A) : M S E A := fun s => (Returned a, s).

Definition bind {S E A B} (c : M S E A) (k : A -> M S E B) : M S E B :=
  fun s =>
    match c s with
    | (Returned a, s') => k a s'
    | (Thrown e, s') => (Thrown e, s')
    | (Fatal, s') => (Fatal, s')
    end.

Definition throw {S E A} (e : E) : M S E A := fun s => (Thrown e, s).
Definition modify {S E} (f : S -> S) : M S E unit := fun s => (Returned tt, f s).

(** [std::runtime_error(msg)], the only standard exception the binding's
    own code constructs in these files. *)
Record runtime_error : Type := mk_runtime_error { runtime_error_what : string }.

End Host.

Declare Scope host_scope.
Delimit Scope host_scope with host.
Notation "x <- c ;; k" := (Host.bind c (fun x => k))
  (at level 100, c at next level, right associativity) : host_scope.
Notation "c ;; k" := (Host.bind c (fun _ => k))
  (at level 100, right associativity) : host_scope.


(* ===================================================================== *)
(** ** Scalar values: constructors, type tests and extraction             *)
(* ===================================================================== *)

Module Values.
Import CInt Cell Host.

(** [RenEngineHandle], the opaque handle of one interpreter instance. *)
Definition RenEngineHandle : Type := Z.

Record Engine : Type := mkEngine { getHandle : RenEngineHandle }.

(** A [ren::Value] owns its cell by value and refers to the engine it was
    bound to; [origin] is [None] as long as [finishInit] has not run. *)
Record Value : Type := mkValue {
  cell : REBVAL;
  origin : option RenEngineHandle
}.

(** What a constructor does to the object and to the process, in the order
    in which it does it. *)
Inductive event : Type :=
| EvSetCell (k : Reb_Kind)
| EvRunFinder
| EvFinishInit (h : RenEngineHandle).

(** The part of the process a constructor can see: the default engine, if
    one is registered, and the journal of what has happened so far. *)
Record Env : Type := mkEnv {
  finder : option Engine;
  journal : list event
}.

Definition C (A : Type) : Type := M Env runtime_error A.

Definition note (e : event) : C unit :=
  modify (fun s => {| finder := finder s; journal := journal s ++ [e] |}).

(** [Value (Dont::Initialize)]: the cell keeps whatever its storage held
    ([raw]) and no engine is bound. *)
Definition Value_Dont_Initialize (raw : REBVAL) : Value :=
  {| cell := raw; origin := None |}.

(** A [SET_...(&cell, ...)] statement of a constructor: the cell of [this]
    becomes [c]. *)
Definition set_cell (this : Value) (c : REBVAL) : C Value :=
  (note (EvSetCell (VAL_TYPE c)) ;;
   ret {| cell := c; origin := origin this |})%host.

(** Modelled from the spec: [Engine::runFinder], which is declared in
    engine.hpp and is not among the sources.  It resolves to the current
    default engine and fails fatally when there is none.  The journal
    records that it was asked. *)
Definition runFinder : C Engine :=
  (note EvRunFinder ;;
   fun s =>
     match finder s with
     | Some e => (Returned e, s)
     | None => (Fatal, s)
     end)%host.

(** Modelled from the spec: [Value::finishInit], which is defined in
    value.cpp and is not among the sources.  It binds the value to the
    engine handle and leaves the cell as it is. *)
Definition finishInit (h : RenEngineHandle) (this : Value) : C Value :=
  (note (EvFinishInit h) ;;
   ret {| cell := cell this; origin := Some h |})%host.

(** [if (not engine) engine = &Engine::runFinder();] *)
Definition or_runFinder (engine : option Engine) : C Engine :=
  match engine with
  | None => runFinder
  | Some e => ret e
  end.

(** *** Unset and none *)

Definition isUnset (this : Value) : bool := IS_UNSET (cell this).

Definition Value_unset (engine : option Engine) (raw : REBVAL) : C Value :=
  (let this := Value_Dont_Initialize raw in
   this <- set_cell this (SET_UNSET (cell this)) ;;
   engine <- or_runFinder engine ;;
   finishInit (getHandle engine) this)%host.

Definition isNone (this : Value) : bool := IS_NONE (cell this).

Definition Value_none (engine : option Engine) (raw : REBVAL) : C Value :=
  (let this := Value_Dont_Initialize raw in
   this <- set_cell this (SET_NONE (cell this)) ;;
   engine <- or_runFinder engine ;;
   finishInit (getHandle engine) this)%host.

(** *** Logic *)

Definition isLogic (this : Value) : bool := IS_LOGIC (cell this).

Definition isTrue (this : Value) : bool :=
  isLogic this && to_bool (VAL_LOGIC (cell this)).

Definition isFalse (this : Value) : bool :=
  isLogic this && negb (to_bool (VAL_LOGIC (cell this))).

Definition Value_bool (someBool : bool) (engine : option Engine)
    (raw : REBVAL) : C Value :=
  (let this := Value_Dont_Initialize raw in
   this <- set_cell this (SET_LOGIC (cell this) (Z.b2z someBool)) ;;
   engine <- or_runFinder engine ;;
   finishInit (getHandle engine) this)%host.

(** [Logic::operator bool] reads the cell through [VAL_INT32]. *)
Definition Logic_operator_bool (this : Value) : bool :=
  to_bool (VAL_INT32 (cell this)).

(** *** Character *)

Definition isCharacter (this : Value) : bool := IS_CHAR (cell this).

(** [c] is a [char], a signed byte. *)
Definition Value_char (c : Z) (engine : option Engine)
    (raw : REBVAL) : C Value :=
  (let this := Value_Dont_Initialize raw in
   this <- set_cell this (SET_CHAR (cell this) c) ;;
   engine <- or_runFinder engine ;;
   finishInit (getHandle engine) this)%host.

Definition Value_wchar_t (wc : Z) (engine : option Engine)
    (raw : REBVAL) : C Value :=
  (let this := Value_Dont_Initialize raw in
   this <- set_cell this (SET_CHAR (cell this) wc) ;;
   engine <- or_runFinder engine ;;
   finishInit (getHandle engine) this)%host.

(** [static_cast<char>]: [char] is a signed byte. *)
Definition static_cast_char (x : Z) : Z := to_signed 8 x.

(** [static_cast<wchar_t>]: [wchar_t] is a signed 32-bit integer. *)
Definition static_cast_wchar_t (x : Z) : Z := to_signed 32 x.

(** Conversion to [long], a signed integer of 64 bits. *)
Definition to_long (x : Z) : Z := to_signed 64 x.

Definition Character_operator_char (this : Value) : outcome runtime_error Z :=
  let uni := VAL_CHAR (cell this) in
  if uni >? 127
  then Thrown (mk_runtime_error "Non-ASCII codepoint cast to char")
  else Returned (static_cast_char uni).

Definition Character_operator_wchar_t (this : Value) : outcome runtime_error Z :=
  let uni := VAL_CHAR (cell this) in
  Returned (static_cast_wchar_t uni).

Definition Character_codepoint (this : Value) : outcome runtime_error Z :=
  let uni := VAL_CHAR (cell this) in
  Returned (to_long uni).

(** *** Integer *)

Definition isInteger (this : Value) : bool := IS_INTEGER (cell this).

Definition Value_int (someInt : Z) (engine : option Engine)
    (raw : REBVAL) : C Value :=
  (let this := Value_Dont_Initialize raw in
   this <- set_cell this (SET_INTEGER (cell this) someInt) ;;
   engine <- or_runFinder engine ;;
   finishInit (getHandle engine) this)%host.

Definition Integer_operator_int (this : Value) : Z := VAL_INT32 (cell this).

(** *** Float *)

Definition isFloat (this : Value) : bool := IS_DECIMAL (cell this).

Definition Value_double (someDouble : Z) (engine : option Engine)
    (raw : REBVAL) : C Value :=
  (let this := Value_Dont_Initialize raw in
   this <- set_cell this (SET_DECIMAL (cell this) someDouble) ;;
   engine <- or_runFinder engine ;;
   finishInit (getHandle engine) this)%host.

Definition Float_operator_double (this : Value) : Z := VAL_DECIMAL (cell this).

(** *** Date *)

Definition isDate (this : Value) : bool := IS_DATE (cell this).

(** *** Error *)

Definition isError (this : Value) : bool := IS_ERROR (cell this).

(** *** The scalar constructors as one family *)

(** The argument that selects a constructor: [unset_t], [none_t], [bool],
    [char], [wchar_t], [int] or [double]. *)
Inductive scalar : Type :=
| from_unset
| from_none
| from_bool (someBool : bool)
| from_char (c : Z)
| from_wchar_t (wc : Z)
| from_int (someInt : Z)
| from_double (someDouble : Z).

Definition construct (a : scalar) : option Engine -> REBVAL -> C Value :=
  match a with
  | from_unset => Value_unset
  | from_none => Value_none
  | from_bool someBool => Value_bool someBool
  | from_char c => Value_char c
  | from_wchar_t wc => Value_wchar_t wc
  | from_int someInt => Value_int someInt
  | from_double someDouble => Value_double someDouble
  end.

(** The datatype a constructor gives its cell. *)
Definition kind_of (a : scalar) : Reb_Kind :=
  match a with
  | from_unset => REB_UNSET
  | from_none => REB_NONE
  | from_bool _ => REB_LOGIC
  | from_char _ => REB_CHAR
  | from_wchar_t _ => REB_CHAR
  | from_int _ => REB_INTEGER
  | from_double _ => REB_DECIMAL
  end.

(** The payload a cell carries for an argument, read through the accessor
    of the argument's datatype; unset and none carry none. *)
Definition payload_of (a : scalar) : option Z :=
  match a with
  | from_unset => None
  | from_none => None
  | from_bool someBool => Some (Z.b2z someBool)
  | from_char c => Some (to_unsigned 16 c)
  | from_wchar_t wc => Some (to_unsigned 16 wc)
  | from_int someInt => Some (to_signed 64 someInt)
  | from_double someDouble => Some (to_unsigned 64 someDouble)
  end.

Definition payload_in (k : Reb_Kind) (c : REBVAL) : option Z :=
  match k with
  | REB_LOGIC => Some (VAL_LOGIC c)
  | REB_CHAR => Some (VAL_CHAR c)
  | REB_INTEGER => Some (VAL_INT64 c)
  | REB_DECIMAL => Some (VAL_DECIMAL c)
  | _ => None
  end.

End Values.


(* ===================================================================== *)
(** ** The exception classes of error.hpp                                  *)
(* ===================================================================== *)

Module Errors.
Import Host Values.

(** [class Error : public Value], valid when the cell holds an error. *)
Definition Error : Type := Value.

Definition Error_isValid (this : Error) : bool := isError this.

(** The exception classes the header declares, with [std::exception], their
    common base. *)
Inductive exception_class : Type :=
| class_std_exception
| class_evaluation_error
| class_has_no_value
| class_evaluation_cancelled
| class_exit_command.

Definition exception_class_eqb (a b : exception_class) : bool :=
  match a, b with
  | class_std_exception, class_std_exception
  | class_evaluation_error, class_evaluation_error
  | class_has_no_value, class_has_no_value
  | class_evaluation_cancelled, class_evaluation_cancelled
  | class_exit_command, class_exit_command => true
  | _, _ => false
  end.

(** The [: public ...] clause of each class. *)
Definition base_class (c : exception_class) : option exception_class :=
  match c with
  | class_std_exception => None
  | class_evaluation_error => Some class_std_exception
  | class_has_no_value => Some class_std_exception
  | class_evaluation_cancelled => Some class_std_exception
  | class_exit_command => Some class_std_exception
  end.

(** [c] is [d] or is derived from it; the chain of bases is followed for at
    most [fuel] steps. *)
Fixpoint is_a_upto (fuel : nat) (c d : exception_class) : bool :=
  exception_class_eqb c d ||
  match fuel with
  | O => false
  | S fuel' =>
      match base_class c with
      | Some b => is_a_upto fuel' b d
      | None => false
      end
  end.

Definition is_a (c d : exception_class) : bool := is_a_upto 5 c d.

(** *** evaluation_error *)

Module EvaluationError.

Section Rendering.

(** The state of the interpreter that formatting a value consults. *)
Variable Runtime : Type.

(** The text [to_string] produces for a value in a given interpreter
    state. *)
Variable form : Runtime -> Value -> string.

(** The process, as far as the class can observe it: the interpreter and
    the number of calls of [to_string] made so far. *)
Record Process : Type := mkProcess {
  runtime : Runtime;
  to_string_calls : nat
}.

Definition P (A : Type) : Type := M Process runtime_error A.

(** Modelled from the spec: [to_string (Value const &)], which is declared
    in value.hpp and is not among the sources.  It formats the value in the
    interpreter's current state. *)
Definition to_string (v : Value) : P string :=
  fun p =>
    (Returned (form (runtime p) v),
     {| runtime := runtime p; to_string_calls := S (to_string_calls p) |}).

Record evaluation_error : Type := mk_evaluation_error {
  errorValue : Error;
  whatString : string
}.

(** [evaluation_error (Error const & error)]: the members are initialised in
    the order of their declaration, [errorValue] from [error] and
    [whatString] from the copy. *)
Definition make (error : Error) : P evaluation_error :=
  (let errorValue := error in
   whatString <- to_string errorValue ;;
   ret {| errorValue := errorValue; whatString := whatString |})%host.

Definition what (this : evaluation_error) : P string :=
  ret (whatString this).

Definition error (this : evaluation_error) : P Error :=
  ret (errorValue this).

End Rendering.

Arguments mkProcess {Runtime} _ _.
Arguments runtime {Runtime} _.
Arguments to_string_calls {Runtime} _.
Arguments make {Runtime} form error.
Arguments what {Runtime} this.
Arguments error {Runtime} this.

End EvaluationError.

(** *** has_no_value *)

Module HasNoValue.

Record has_no_value : Type := mk_has_no_value { }.

Definition make : has_no_value := mk_has_no_value.

Definition what (this : has_no_value) : string := "ren::has_no_value".

End HasNoValue.

(** *** evaluation_cancelled *)

Module EvaluationCancelled.

Record evaluation_cancelled : Type := mk_evaluation_cancelled { }.

Definition make : evaluation_cancelled := mk_evaluation_cancelled.

Definition what (this : evaluation_cancelled) : string :=
  "ren::evaluation_cancelled".

End EvaluationCancelled.

(** *** exit_command *)

Module ExitCommand.

(** [std::to_string (int)]: the decimal digits, with a minus sign in front
    of a negative number. *)
Definition std_to_string (n : Z) : string :=
  NilZero.string_of_int (Z.to_int n).

Record exit_command : Type := mk_exit_command {
  codeValue : Z;
  whatString : string
}.

Definition make (code : Z) : exit_command :=
  {| codeValue := code;
     whatString := ("ren::exit_command(" ++ std_to_string code ++ ")")%string |}.

Definition what (this : exit_command) : string := whatString this.

Definition code (this : exit_command) : Z := codeValue this.

End ExitCommand.

(** *** Thrown objects *)

(** An object of one of the four classes, as a [catch] clause meets it. *)
Inductive host_failure : Type :=
| thrown_evaluation_error (e : EvaluationError.evaluation_error)
| thrown_has_no_value (e : HasNoValue.has_no_value)
| thrown_evaluation_cancelled (e : EvaluationCancelled.evaluation_cancelled)
| thrown_exit_command (e : ExitCommand.exit_command).

Definition dynamic_class (f : host_failure) : exception_class :=
  match f with
  | thrown_evaluation_error _ => class_evaluation_error
  | thrown_has_no_value _ => class_has_no_value
  | thrown_evaluation_cancelled _ => class_evaluation_cancelled
  | thrown_exit_command _ => class_exit_command
  end.

(** A handler [catch (handler const &)] takes the object when its class is
    the handler's or is derived from it. *)
Definition caught_by (handler : exception_class) (f : host_failure) : bool :=
  is_a (dynamic_class f) handler.

(** The virtual [what ()]. *)
Definition what (f : host_failure) : string :=
  match f with
  | thrown_evaluation_error e => EvaluationError.whatString e
  | thrown_has_no_value e => HasNoValue.what e
  | thrown_evaluation_cancelled e => EvaluationCancelled.what e
  | thrown_exit_command e => ExitCommand.what e
  end.

(** The data members of the object: the Error value and the exit code it
    holds, if its class declares such a member. *)
Definition held_error (f : host_failure) : option Error :=
  match f with
  | thrown_evaluation_error e => Some (EvaluationError.errorValue e)
  | _ => None
  end.

Definition held_code (f : host_failure) : option Z :=
  match f with
  | thrown_exit_command e => Some (ExitCommand.codeValue e)
  | _ => None
  end.

(** The code a description of the form [ren::exit_command(<digits>)]
    carries between its parentheses. *)
Fixpoint strip_prefix (p s : string) : option string :=
  match p, s with
  | EmptyString, _ => Some s
  | String a p', String b s' => if Ascii.eqb a b then strip_prefix p' s' else None
  | String _ _, EmptyString => None
  end.

Fixpoint strip_last (c : ascii) (s : string) : option string :=
  match s with
  | EmptyString => None
  | String a EmptyString => if Ascii.eqb a c then Some EmptyString else None
  | String a s' => option_map (String a) (strip_last c s')
  end.

Definition embedded_code (description : string) : option Z :=
  match strip_prefix "ren::exit_command(" description with
  | None => None
  | Some rest =>
      match strip_last ")" rest with
      | None => None
      | Some digits => option_map Z.of_int (NilZero.int_of_string digits)
      end
  end.

End Errors.


(* ===================================================================== *)
(** ** The standard IO device (rebol-stdio.cpp)                            *)
(* ===================================================================== *)

Module Stdio.
Import CInt Host.

(** Modelled from the spec: the flag macros of the runtime's headers, which
    are not among the sources.  [GET_FLAG(v, f)] is [(v & (1 << f)) != 0],
    [SET_FLAG(v, f)] is [v |= (1 << f)] and [CLR_FLAG(v, f)] is
    [v &= ~(1 << f)], on a 32-bit word of flags; [f] is a bit number. *)
Definition GET_FLAG (v f : Z) : bool := negb (Z.land v (Z.shiftl 1 f) =? 0).
Definition SET_FLAG (v f : Z) : Z := to_unsigned 32 (Z.lor v (Z.shiftl 1 f)).
Definition CLR_FLAG (v f : Z) : Z := to_unsigned 32 (Z.ldiff v (Z.shiftl 1 f)).

(** [#define SF_DEV_NULL 31] *)
Definition SF_DEV_NULL : Z := 31.

(** Modelled from the spec: the result codes of a device command. *)
Inductive DEVICE_CMD : Type := DR_DONE | DR_PEND | DR_ERROR.

(** Modelled from the spec: the members of a device ([REBDEV]) and of a
    request ([REBREQ]) that the commands use; the structures are declared in
    the runtime's headers.  A buffer is the list of its bytes. *)
Record REBDEV : Type := mkREBDEV {
  dev_flags : Z
}.

Record REBREQ : Type := mkREBREQ {
  device : Z;
  flags : Z;
  modes : Z;
  error : Z;
  data : list Z;
  length : Z;
  actual : Z
}.

(** The host's streams, as far as the device uses them: [os.write (s, n)]
    and [!os] of a [std::ostream]; [is.read (s, n)], which yields the bytes
    it stored, [is.fail ()] and [is.gcount ()] of a [std::istream]. *)
Class HostStreams : Type := {
  ostream : Type;
  istream : Type;
  os_write : ostream -> list Z -> ostream;
  os_not : ostream -> bool;
  is_read : istream -> Z -> istream * list Z;
  is_fail : istream -> bool;
  is_gcount : istream -> Z
}.

Section Commands.

Context {streams : HostStreams}.

(** The bit numbers [RDM_NULL] (request mode), [RDF_OPEN] (device flag) and
    [RRF_OPEN] (request flag) of the runtime's reb-device.h, which is not
    among the sources. *)
Variable RDM_NULL : Z.
Variable RDF_OPEN : Z.
Variable RRF_OPEN : Z.

(** What the commands work on besides the request: the device table and
    the two streams of [rebol::runtime]. *)
Record Runtime : Type := mkRuntime {
  Devices : list REBDEV;
  OutputStream : ostream;
  InputStream : istream
}.

Definition D (A : Type) : Type := M Runtime runtime_error A.

Definition set_flags (req : REBREQ) (x : Z) : REBREQ :=
  {| device := device req; flags := x; modes := modes req;
     error := error req; data := data req; length := length req;
     actual := actual req |}.

Definition set_modes (req : REBREQ) (x : Z) : REBREQ :=
  {| device := device req; flags := flags req; modes := x;
     error := error req; data := data req; length := length req;
     actual := actual req |}.

Definition set_error (req : REBREQ) (x : Z) : REBREQ :=
  {| device := device req; flags := flags req; modes := modes req;
     error := x; data := data req; length := length req;
     actual := actual req |}.

Definition set_data (req : REBREQ) (x : list Z) : REBREQ :=
  {| device := device req; flags := flags req; modes := modes req;
     error := error req; data := x; length := length req;
     actual := actual req |}.

Definition set_actual (req : REBREQ) (x : Z) : REBREQ :=
  {| device := device req; flags := flags req; modes := modes req;
     error := error req; data := data req; length := length req;
     actual := x |}.

(** [Devices[i]]; there is no device outside the table. *)
Definition the_device (i : Z) : D REBDEV :=
  fun rt =>
    match (if i <? 0 then None else Devices rt !! Z.to_nat i) with
    | Some dev => (Returned dev, rt)
    | None => (Fatal, rt)
    end.

Definition put_device (i : Z) (dev : REBDEV) : D unit :=
  modify (fun rt =>
    {| Devices := <[Z.to_nat i := dev]> (Devices rt);
       OutputStream := OutputStream rt;
       InputStream := InputStream rt |}).

(** [Quit_IO]: its argument is the device. *)
Definition Quit_IO (dev : REBDEV) : REBDEV * DEVICE_CMD :=
  let temp := dev_flags dev in
  let temp := CLR_FLAG temp RDF_OPEN in
  ({| dev_flags := to_unsigned 32 temp |}, DR_DONE).

Definition Open_IO (req : REBREQ) : D (REBREQ * DEVICE_CMD) :=
  (dev <- the_device (device req) ;;
   if GET_FLAG (dev_flags dev) RDF_OPEN then
     let req :=
       if GET_FLAG (dev_flags dev) SF_DEV_NULL
       then set_modes req (SET_FLAG (modes req) RDM_NULL)
       else req in
     let req := set_flags req (SET_FLAG (flags req) RRF_OPEN) in
     ret (req, DR_DONE)
   else
     let dev :=
       if negb (GET_FLAG (modes req) RDM_NULL) then dev
       else
         let temp := dev_flags dev in
         let temp := SET_FLAG temp SF_DEV_NULL in
         {| dev_flags := to_unsigned 32 temp |} in
     let req := set_flags req (SET_FLAG (flags req) RRF_OPEN) in
     let dev := {| dev_flags := SET_FLAG (dev_flags dev) RDF_OPEN |} in
     put_device (device req) dev ;;
     ret (req, DR_DONE))%host.

(** [Close_IO] takes the address of its device and does not use it. *)
Definition Close_IO (req : REBREQ) : D (REBREQ * DEVICE_CMD) :=
  let req := set_flags req (CLR_FLAG (flags req) RRF_OPEN) in
  ret (req, DR_DONE).

(** The first [n] bytes of a buffer, [n] an [int]. *)
Definition bytes (buf : list Z) (n : Z) : list Z := take (Z.to_nat n) buf.

(** [Write_IO]: a null device takes the request as written in full;
    otherwise the bytes go to the output stream, and a stream that is bad
    afterwards makes the request fail with error 1020. *)
Definition Write_IO (req : REBREQ) : D (REBREQ * DEVICE_CMD) :=
  if GET_FLAG (modes req) RDM_NULL then
    let req := set_actual req (length req) in
    ret (req, DR_DONE)
  else
    fun rt =>
      let os := OutputStream rt in
      let os := os_write os (bytes (data req) (to_signed 32 (length req))) in
      let rt := {| Devices := Devices rt; OutputStream := os;
                   InputStream := InputStream rt |} in
      if os_not os then
        let req := set_error req (to_unsigned 32 1020) in
        (Returned (req, DR_ERROR), rt)
      else
        let req := set_actual req (to_unsigned 32 (length req)) in
        (Returned (req, DR_DONE), rt).

(** [Read_IO]: on a null device [req->data[0] = 0] and nothing else;
    otherwise [actual] is reset and the input stream fills the buffer.  The
    buffer of a request is never empty (it must be long enough to hold the
    result); on an empty list the store at index 0 changes nothing. *)
Definition Read_IO (req : REBREQ) : D (REBREQ * DEVICE_CMD) :=
  if GET_FLAG (modes req) RDM_NULL then
    let req := set_data req (<[0%nat := 0]> (data req)) in
    ret (req, DR_DONE)
  else
    fun rt =>
      let req := set_actual req 0 in
      let input := InputStream rt in
      let '(input, got) := is_read input (to_signed 32 (length req)) in
      let req := set_data req (got ++ drop (List.length got) (data req)) in
      let rt := {| Devices := Devices rt; OutputStream := OutputStream rt;
                   InputStream := input |} in
      if is_fail input then
        let req := set_error req (to_unsigned 32 1020) in
        (Returned (req, DR_ERROR), rt)
      else
        let req := set_actual req (to_unsigned 32 (is_gcount input)) in
        (Returned (req, DR_DONE), rt).

(** [Open_Echo]: the [return DR_DONE] after the [throw] is never reached. *)
Definition Open_Echo (req : REBREQ) : D (REBREQ * DEVICE_CMD) :=
  throw (mk_runtime_error
    ("echo stdin and stdout to file not supported by binding"
     ++ " in a direct fashion, you have to create a stream aggregator"
     ++ " object that does it if you want that feature.")%string).

(** The commands of a device, in the order of the command table. *)
Inductive RDC : Type :=
| RDC_INIT | RDC_QUIT | RDC_OPEN | RDC_CLOSE | RDC_READ | RDC_WRITE
| RDC_POLL | RDC_CONNECT | RDC_QUERY | RDC_MODIFY | RDC_CREATE.

(** [Dev_Cmds]: the entries of the table that take a request; [RDC_QUIT]
    takes the device itself and the other entries are null. *)
Definition Dev_Cmds (cmd : RDC) : option (REBREQ -> D (REBREQ * DEVICE_CMD)) :=
  match cmd with
  | RDC_OPEN => Some Open_IO
  | RDC_CLOSE => Some Close_IO
  | RDC_READ => Some Read_IO
  | RDC_WRITE => Some Write_IO
  | RDC_CREATE => Some Open_Echo
  | _ => None
  end.

End Commands.

(** Host streams over byte buffers: the output stream keeps what it was
    given and has room for [os_room] more bytes, the input stream holds the
    bytes still to be read. *)
Record buffer_ostream : Type := mk_buffer_ostream {
  os_written : list Z;
  os_room : nat;
  os_badbit : bool
}.

Record buffer_istream : Type := mk_buffer_istream {
  is_pending : list Z;
  is_count : Z;
  is_failbit : bool
}.

Definition buffer_os_write (os : buffer_ostream) (s : list Z) : buffer_ostream :=
  if os_badbit os then os
  else if (List.length s <=? os_room os)%nat
  then {| os_written := os_written os ++ s;
          os_room := os_room os - List.length s;
          os_badbit := false |}
  else {| os_written := os_written os ++ take (os_room os) s;
          os_room := 0;
          os_badbit := true |}.

Definition buffer_is_read (input : buffer_istream) (n : Z)
    : buffer_istream * list Z :=
  if is_failbit input
  then ({| is_pending := is_pending input; is_count := 0; is_failbit := true |}, [])
  else
    let got := take (Z.to_nat n) (is_pending input) in
    ({| is_pending := drop (Z.to_nat n) (is_pending input);
        is_count := Z.of_nat (List.length got);
        is_failbit := (List.length got <? Z.to_nat n)%nat |}, got).

#[export] Instance buffer_streams : HostStreams := {|
  ostream := buffer_ostream;
  istream := buffer_istream;
  os_write := buffer_os_write;
  os_not := os_badbit;
  is_read := buffer_is_read;
  is_fail := is_failbit;
  is_gcount := is_count
|}.

End Stdio.


(* ===================================================================== *)
(** ** Facts about fixed-width conversions and the cell                    *)
(* ===================================================================== *)

Module CIntFacts.
Import CInt.

Lemma to_unsigned_mod (w x : Z) :
  0 <= w -> to_unsigned w x = x mod 2 ^ w.
Proof. intros Hw. unfold to_unsigned. now apply Z.land_ones. Qed.

Lemma to_unsigned_range (w x : Z) :
  0 <= w -> 0 <= to_unsigned w x < 2 ^ w.
Proof.
  intros Hw. rewrite to_unsigned_mod by assumption.
  apply Z.mod_pos_bound. now apply Z.pow_pos_nonneg.
Qed.

Lemma to_unsigned_small (w x : Z) :
  0 <= w -> 0 <= x < 2 ^ w -> to_unsigned w x = x.
Proof.
  intros Hw Hx. rewrite to_unsigned_mod by assumption.
  now apply Z.mod_small.
Qed.

(** The sign bit of a [w]-bit pattern is set exactly from [2 ^ (w - 1)] on. *)
Lemma sign_bit (w u : Z) :
  0 < w -> 0 <= u < 2 ^ w ->
  Z.testbit u (w - 1) = (2 ^ (w - 1) <=? u).
Proof.
  intros Hw Hu.
  assert (Hp : 0 < 2 ^ (w - 1)) by (apply Z.pow_pos_nonneg; lia).
  assert (H2 : 2 ^ w = 2 * 2 ^ (w - 1)).
  { replace w with (Z.succ (w - 1)) at 1 by lia. apply Z.pow_succ_r. lia. }
  rewrite Z.testbit_eqb by lia.
  destruct (Z.leb_spec (2 ^ (w - 1)) u) as [Hge | Hlt].
  - assert (Hq : u / 2 ^ (w - 1) = 1).
    { symmetry. apply (Z.div_unique u (2 ^ (w - 1)) 1 (u - 2 ^ (w - 1))); lia. }
    rewrite Hq. reflexivity.
  - rewrite Z.div_small by lia. reflexivity.
Qed.

(** A value of the signed type's range survives the conversion. *)
Lemma to_signed_small (w x : Z) :
  0 < w -> - 2 ^ (w - 1) <= x < 2 ^ (w - 1) -> to_signed w x = x.
Proof.
  intros Hw Hx.
  assert (Hp : 0 < 2 ^ (w - 1)) by (apply Z.pow_pos_nonneg; lia).
  assert (H2 : 2 ^ w = 2 * 2 ^ (w - 1)).
  { replace w with (Z.succ (w - 1)) at 1 by lia. apply Z.pow_succ_r. lia. }
  unfold to_signed.
  rewrite sign_bit by (try apply to_unsigned_range; lia).
  rewrite to_unsigned_mod by lia.
  destruct (Z.neg_nonneg_cases x) as [Hneg | Hpos].
  - assert (Hm : x mod 2 ^ w = x + 2 ^ w).
    { symmetry. apply (Z.mod_unique x (2 ^ w) (-1)); lia. }
    rewrite Hm. destruct (Z.leb_spec (2 ^ (w - 1)) (x + 2 ^ w)); lia.
  - rewrite Z.mod_small by lia.
    destruct (Z.leb_spec (2 ^ (w - 1)) x); lia.
Qed.

(** The signed conversion only looks at the low [w] bits. *)
Lemma to_signed_low_bits (w x y : Z) :
  to_unsigned w x = to_unsigned w y -> to_signed w x = to_signed w y.
Proof. intros H. unfold to_signed. now rewrite H. Qed.

(** Narrowing after a signed conversion sees the bits of the original. *)
Lemma to_unsigned_to_signed (k w x : Z) :
  0 <= k <= w -> 0 < w ->
  to_unsigned k (to_signed w x) = to_unsigned k x.
Proof.
  intros Hk Hw.
  assert (Hdiv : (2 ^ k | 2 ^ w)).
  { exists (2 ^ (w - k)). rewrite <- Z.pow_add_r by lia. f_equal. lia. }
  assert (Hlow : (x mod 2 ^ w) mod 2 ^ k = x mod 2 ^ k)
    by now apply Z.mod_mod_divide.
  unfold to_signed.
  destruct (Z.testbit (to_unsigned w x) (w - 1)).
  - rewrite !to_unsigned_mod by lia.
    destruct Hdiv as [q Hq].
    replace (x mod 2 ^ w - 2 ^ w) with (x mod 2 ^ w + (- q) * 2 ^ k) by lia.
    rewrite Z_mod_plus_full. exact Hlow.
  - rewrite !to_unsigned_mod by lia. exact Hlow.
Qed.

Lemma to_bool_b2z (b : bool) : to_bool (Z.b2z b) = b.
Proof. now destruct b. Qed.

(** Side conditions on the ranges of the C++ types. *)
Ltac in_range :=
  unfold int_range, char_range, REBUNI_range, bits64_range in *;
  try match goal with
      | |- context [Z.b2z ?b] => destruct b; cbn
      end;
  lia.

End CIntFacts.

Module CellFacts.
Import CInt Cell CIntFacts.

(** Reading [k] low bits after a member of [w >= k] bits was written gives
    the low bits of what was written, whatever the cell held before. *)
Lemma store_read (k w : Z) (v : REBVAL) (x : Z) :
  0 <= k <= w ->
  to_unsigned k (data (store w v x)) = to_unsigned k x.
Proof.
  intros Hk. unfold to_unsigned, store. cbn [data].
  apply Z.bits_inj'. intros n Hn.
  rewrite !Z.land_spec, Z.lor_spec, Z.ldiff_spec, Z.land_spec.
  rewrite !Z.testbit_ones_nonneg by lia.
  destruct (Z.ltb_spec n k), (Z.ltb_spec n w); try lia;
    cbn; rewrite ?andb_true_r, ?andb_false_r, ?orb_false_r; reflexivity.
Qed.

Lemma store_header (w : Z) (v : REBVAL) (x : Z) :
  VAL_TYPE (store w v x) = VAL_TYPE v.
Proof. reflexivity. Qed.

Lemma VAL_CHAR_range (v : REBVAL) : REBUNI_range (VAL_CHAR v).
Proof. unfold REBUNI_range, VAL_CHAR. apply to_unsigned_range. lia. Qed.

Lemma VAL_CHAR_SET_CHAR (v : REBVAL) (u : Z) :
  REBUNI_range u -> VAL_CHAR (SET_CHAR v u) = u.
Proof.
  intros Hu. unfold VAL_CHAR, SET_CHAR.
  rewrite store_read by lia. apply to_unsigned_small; in_range.
Qed.

Lemma VAL_INT32_SET_INTEGER (v : REBVAL) (n : Z) :
  int_range n -> VAL_INT32 (SET_INTEGER v n) = n.
Proof.
  intros Hn. unfold VAL_INT32, VAL_INT64, SET_INTEGER.
  rewrite (to_signed_low_bits 32 _ n).
  - apply to_signed_small; in_range.
  - rewrite to_unsigned_to_signed by lia. apply store_read. lia.
Qed.

(** The logic member and the integer member share their low 32 bits, so
    [VAL_INT32] reads back what [SET_LOGIC] wrote. *)
Lemma VAL_INT32_SET_LOGIC (v : REBVAL) (n : Z) :
  VAL_INT32 (SET_LOGIC v n) = Z.b2z (to_bool n).
Proof.
  unfold VAL_INT32, VAL_INT64, SET_LOGIC.
  rewrite (to_signed_low_bits 32 _ (Z.b2z (to_bool n))).
  - apply to_signed_small; in_range.
  - rewrite to_unsigned_to_signed by lia. apply store_read. lia.
Qed.

Lemma VAL_LOGIC_SET_LOGIC (v : REBVAL) (n : Z) :
  VAL_LOGIC (SET_LOGIC v n) = Z.b2z (to_bool n).
Proof.
  unfold VAL_LOGIC, SET_LOGIC. rewrite store_read by lia.
  apply to_unsigned_small; in_range.
Qed.

Lemma VAL_DECIMAL_SET_DECIMAL (v : REBVAL) (d : Z) :
  bits64_range d -> VAL_DECIMAL (SET_DECIMAL v d) = d.
Proof.
  intros Hd. unfold VAL_DECIMAL, SET_DECIMAL.
  rewrite store_read by lia. apply to_unsigned_small; in_range.
Qed.

(** What an accessor reads right after the matching [SET_...]. *)
Create Rewrite HintDb cell_read.
#[export] Hint Rewrite VAL_INT32_SET_LOGIC VAL_LOGIC_SET_LOGIC to_bool_b2z
  : cell_read.
#[export] Hint Rewrite VAL_CHAR_SET_CHAR VAL_INT32_SET_INTEGER
  VAL_DECIMAL_SET_DECIMAL using in_range : cell_read.

Lemma Reb_Kind_eqb_eq (a b : Reb_Kind) : Reb_Kind_eqb a b = true <-> a = b.
Proof.
  split.
  - destruct a, b; cbn; try discriminate; try reflexivity.
    intros H. apply Nat.eqb_eq in H. now subst.
  - intros <-. destruct a; cbn; try reflexivity. apply Nat.eqb_refl.
Qed.

End CellFacts.

(* ===================================================================== *)
(** ** Scalar values                                                       *)
(* ===================================================================== *)

Module ValuesSpec.
Import CInt Cell Host Values CIntFacts CellFacts.

(** The cell a constructor leaves has the datatype and the payload of its
    argument, whatever the storage held before. *)
Lemma tagged_cell (a : scalar) (raw : REBVAL) :
  exists c : REBVAL,
    VAL_TYPE c = kind_of a /\
    payload_in (kind_of a) c = payload_of a /\
    forall engine, construct a engine raw =
      (this <- set_cell (Value_Dont_Initialize raw) c ;;
       engine <- or_runFinder engine ;;
       finishInit (getHandle engine) this)%host.
Proof.
  destruct a as [ | | b | c | wc | n | d ]; cbn [construct kind_of payload_of].
  - exists (SET_UNSET raw). repeat split.
  - exists (SET_NONE raw). repeat split.
  - exists (SET_LOGIC raw (Z.b2z b)). repeat split.
    cbn [payload_in]. now rewrite VAL_LOGIC_SET_LOGIC, to_bool_b2z.
  - exists (SET_CHAR raw c). repeat split.
    cbn [payload_in]. unfold VAL_CHAR, SET_CHAR. now rewrite store_read by lia.
  - exists (SET_CHAR raw wc). repeat split.
    cbn [payload_in]. unfold VAL_CHAR, SET_CHAR. now rewrite store_read by lia.
  - exists (SET_INTEGER raw n). repeat split.
    cbn [payload_in]. unfold VAL_INT64, SET_INTEGER. f_equal.
    apply to_signed_low_bits, store_read. lia.
  - exists (SET_DECIMAL raw d). repeat split.
    cbn [payload_in]. unfold VAL_DECIMAL, SET_DECIMAL.
    now rewrite store_read by lia.
Qed.

(** The three ways the common tail of the constructors can run. *)
Lemma tag_then_bind_run (raw c : REBVAL) (engine : option Engine) (env : Env) :
  (this <- set_cell (Value_Dont_Initialize raw) c ;;
   engine <- or_runFinder engine ;;
   finishInit (getHandle engine) this)%host env =
  match engine, finder env with
  | Some e, _ =>
      (Returned {| cell := c; origin := Some (getHandle e) |},
       {| finder := finder env;
          journal := journal env ++
            [EvSetCell (VAL_TYPE c); EvFinishInit (getHandle e)] |})
  | None, Some d =>
      (Returned {| cell := c; origin := Some (getHandle d) |},
       {| finder := finder env;
          journal := journal env ++
            [EvSetCell (VAL_TYPE c); EvRunFinder; EvFinishInit (getHandle d)] |})
  | None, None =>
      (Fatal,
       {| finder := finder env;
          journal := journal env ++ [EvSetCell (VAL_TYPE c); EvRunFinder] |})
  end.
Proof.
  destruct engine as [e |].
  - cbn. now rewrite <- app_assoc.
  - destruct (finder env) as [d |] eqn:Hf;
      unfold bind, set_cell, or_runFinder, runFinder, finishInit, note, modify,
        ret, bind; cbn; rewrite Hf; cbn; now rewrite <- !app_assoc.
Qed.

(** C7: every scalar constructor (unset, none, logic, character, wide
    character, integer, float) first gives its cell the datatype and the
    payload of its argument and only then binds the value to an engine; the
    engine is the one passed in, or, when none is passed, the one the finder
    yields, which is asked after the cell is set and before the value is
    bound.  Without an engine and without a default one the constructor
    stops at the finder and nothing is bound. *)
Theorem constructors_tag_then_bind
    (a : scalar) (engine : option Engine) (raw : REBVAL) (env : Env) :
  exists c : REBVAL,
    VAL_TYPE c = kind_of a /\
    payload_in (kind_of a) c = payload_of a /\
    construct a engine raw env =
    match engine, finder env with
    | Some e, _ =>
        (Returned {| cell := c; origin := Some (getHandle e) |},
         {| finder := finder env;
            journal := journal env ++
              [EvSetCell (kind_of a); EvFinishInit (getHandle e)] |})
    | None, Some d =>
        (Returned {| cell := c; origin := Some (getHandle d) |},
         {| finder := finder env;
            journal := journal env ++
              [EvSetCell (kind_of a); EvRunFinder;
               EvFinishInit (getHandle d)] |})
    | None, None =>
        (Fatal,
         {| finder := finder env;
            journal := journal env ++ [EvSetCell (kind_of a); EvRunFinder] |})
    end.
Proof.
  destruct (tagged_cell a raw) as (c & Hk & Hp & Hrun).
  exists c. split; [exact Hk |]. split; [exact Hp |].
  rewrite Hrun, tag_then_bind_run, Hk. reflexivity.
Qed.

(** With an engine at hand the common tail returns a bound value. *)
Lemma tag_then_bind_returns
    (raw c : REBVAL) (engine : option Engine) (env : Env) :
  engine <> None \/ finder env <> None ->
  exists h env',
    (this <- set_cell (Value_Dont_Initialize raw) c ;;
     engine <- or_runFinder engine ;;
     finishInit (getHandle engine) this)%host env =
    (Returned {| cell := c; origin := Some h |}, env').
Proof.
  intros Havail. rewrite tag_then_bind_run.
  destruct engine as [e |]; [| destruct (finder env) as [d |]].
  - eexists _, _. reflexivity.
  - eexists _, _. reflexivity.
  - destruct Havail; congruence.
Qed.

(** Run a constructor over the storage [raw] whose cell becomes [c], with
    an engine at hand: the
    goal [exists v env', run = (Returned v, env') /\ test v = true /\ P v]
    is reduced to [P] of the value that was built. *)
Ltac constructed raw c Havail :=
  let h := fresh "h" in
  let env' := fresh "env'" in
  let Hrun := fresh "Hrun" in
  destruct (tag_then_bind_returns raw c _ _ Havail) as (h & env' & Hrun);
  eexists _, env'; split; [exact Hrun |]; split; [reflexivity |].

Lemma in_char_range_codepoint (v : Value) :
  char_range (VAL_CHAR (cell v)) <-> VAL_CHAR (cell v) <= 127.
Proof. pose proof (VAL_CHAR_range (cell v)) as Hr. in_range. Qed.

(** C1: extracting a character to [char] throws the runtime_error
    "Non-ASCII codepoint cast to char" if and only if the stored codepoint
    lies outside the range of [char]; for every codepoint inside that range
    the extraction returns, and returns the codepoint itself. *)
Theorem operator_char_narrowing (v : Value) :
  (Character_operator_char v =
     Thrown (mk_runtime_error "Non-ASCII codepoint cast to char")
   <-> ~ char_range (VAL_CHAR (cell v))) /\
  (char_range (VAL_CHAR (cell v)) ->
   Character_operator_char v = Returned (VAL_CHAR (cell v))).
Proof.
  pose proof (VAL_CHAR_range (cell v)) as Hr.
  rewrite in_char_range_codepoint.
  unfold Character_operator_char, static_cast_char.
  destruct (Z.gtb_spec (VAL_CHAR (cell v)) 127) as [Hgt | Hle].
  - split; [split; [lia | reflexivity] | lia].
  - split; [split; [discriminate | lia] |].
    intros _. f_equal. apply to_signed_small; [lia |].
    unfold REBUNI_range in Hr. lia.
Qed.

(** The codepoint 65 is inside the range and is returned as it is; the
    codepoint 200 is outside and is refused. *)
Lemma operator_char_narrowing_witness :
  (char_range
     (VAL_CHAR (cell {| cell := SET_CHAR (mkREBVAL REB_END 0) 65;
                        origin := Some 1 |})) /\
   Character_operator_char
     {| cell := SET_CHAR (mkREBVAL REB_END 0) 65; origin := Some 1 |}
     = Returned 65) /\
  (~ char_range
       (VAL_CHAR (cell {| cell := SET_CHAR (mkREBVAL REB_END 0) 200;
                          origin := Some 1 |})) /\
   Character_operator_char
     {| cell := SET_CHAR (mkREBVAL REB_END 0) 200; origin := Some 1 |}
     = Thrown (mk_runtime_error "Non-ASCII codepoint cast to char")).
Proof.
  assert (H65 : char_range 65) by (unfold char_range; lia).
  assert (H200 : ~ char_range 200) by (unfold char_range; lia).
  split; split.
  - exact H65.
  - exact (proj2 (operator_char_narrowing
      {| cell := SET_CHAR (mkREBVAL REB_END 0) 65; origin := Some 1 |}) H65).
  - exact H200.
  - exact (proj2 (proj1 (operator_char_narrowing
      {| cell := SET_CHAR (mkREBVAL REB_END 0) 200; origin := Some 1 |})) H200).
Defined.

(** C10: extracting a character to [wchar_t] and reading its codepoint
    return for every cell, and return the stored codepoint: neither checks a
    range.  A codepoint that [operator char] refuses is returned by both. *)
Theorem wide_extraction_total (v : Value) :
  Character_operator_wchar_t v = Returned (VAL_CHAR (cell v)) /\
  Character_codepoint v = Returned (VAL_CHAR (cell v)) /\
  exists w : Value,
    VAL_CHAR (cell w) = 2 ^ 16 - 1 /\
    Character_operator_char w =
      Thrown (mk_runtime_error "Non-ASCII codepoint cast to char") /\
    Character_operator_wchar_t w = Returned (2 ^ 16 - 1) /\
    Character_codepoint w = Returned (2 ^ 16 - 1).
Proof.
  pose proof (VAL_CHAR_range (cell v)) as Hr. unfold REBUNI_range in Hr.
  unfold Character_operator_wchar_t, Character_codepoint,
    static_cast_wchar_t, to_long.
  split; [| split].
  - f_equal. apply to_signed_small; lia.
  - f_equal. apply to_signed_small; lia.
  - exists {| cell := SET_CHAR (mkREBVAL REB_END 0) (2 ^ 16 - 1);
              origin := Some 1 |}.
    vm_compute. repeat split.
Qed.

(** C9: on a value whose datatype is not logic, [isTrue] and [isFalse] are
    both false; on no value are both true; on a logic value each is the
    negation of the other. *)
Theorem isTrue_isFalse (v : Value) :
  (VAL_TYPE (cell v) <> REB_LOGIC -> isTrue v = false /\ isFalse v = false) /\
  (isTrue v && isFalse v = false) /\
  (VAL_TYPE (cell v) = REB_LOGIC -> isFalse v = negb (isTrue v)).
Proof.
  unfold isTrue, isFalse, isLogic, IS_LOGIC.
  destruct (Reb_Kind_eqb (VAL_TYPE (cell v)) REB_LOGIC) eqn:Hk.
  - apply Reb_Kind_eqb_eq in Hk. cbn.
    split; [congruence |]. split; [apply andb_negb_r | reflexivity].
  - cbn. split; [easy |]. split; [reflexivity |].
    intros H. apply Reb_Kind_eqb_eq in H. congruence.
Qed.

(** An integer value answers false twice; a logic value built from [true]
    answers true to [isTrue] only. *)
Lemma isTrue_isFalse_witness :
  (VAL_TYPE (cell {| cell := SET_INTEGER (mkREBVAL REB_END 0) 1;
                     origin := Some 1 |}) <> REB_LOGIC /\
   isTrue {| cell := SET_INTEGER (mkREBVAL REB_END 0) 1; origin := Some 1 |}
     = false /\
   isFalse {| cell := SET_INTEGER (mkREBVAL REB_END 0) 1; origin := Some 1 |}
     = false) /\
  (VAL_TYPE (cell {| cell := SET_LOGIC (mkREBVAL REB_END 0) 1;
                     origin := Some 1 |}) = REB_LOGIC /\
   isTrue {| cell := SET_LOGIC (mkREBVAL REB_END 0) 1; origin := Some 1 |}
     = true /\
   isFalse {| cell := SET_LOGIC (mkREBVAL REB_END 0) 1; origin := Some 1 |}
     = negb (isTrue {| cell := SET_LOGIC (mkREBVAL REB_END 0) 1;
                       origin := Some 1 |})).
Proof.
  assert (Hint : REB_INTEGER <> REB_LOGIC) by discriminate.
  split.
  - split; [exact Hint |].
    exact (proj1 (isTrue_isFalse
      {| cell := SET_INTEGER (mkREBVAL REB_END 0) 1; origin := Some 1 |}) Hint).
  - split; [reflexivity |]. split; [reflexivity |].
    exact (proj2 (proj2 (isTrue_isFalse
      {| cell := SET_LOGIC (mkREBVAL REB_END 0) 1; origin := Some 1 |}))
      eq_refl).
Defined.

(** C3: with an engine at hand, a value constructed from a [bool], from an
    [int] or from a [double] is of the logic, integer or float datatype, and
    the extraction operator of that refined view returns the payload the
    value was constructed from, whatever the cell's storage held before. *)
Theorem scalar_round_trip
    (engine : option Engine) (raw : REBVAL) (env : Env) :
  engine <> None \/ finder env <> None ->
  (forall b : bool,
     exists v env',
       Value_bool b engine raw env = (Returned v, env') /\
       isLogic v = true /\ Logic_operator_bool v = b) /\
  (forall n : Z, int_range n ->
     exists v env',
       Value_int n engine raw env = (Returned v, env') /\
       isInteger v = true /\ Integer_operator_int v = n) /\
  (forall d : Z, bits64_range d ->
     exists v env',
       Value_double d engine raw env = (Returned v, env') /\
       isFloat v = true /\ Float_operator_double v = d).
Proof.
  intros Havail. split; [| split].
  - intros b. constructed raw (SET_LOGIC raw (Z.b2z b)) Havail.
    unfold Logic_operator_bool; cbn [cell].
    now autorewrite with cell_read.
  - intros n Hn. constructed raw (SET_INTEGER raw n) Havail.
    unfold Integer_operator_int; cbn [cell].
    now autorewrite with cell_read.
  - intros d Hd. constructed raw (SET_DECIMAL raw d) Havail.
    unfold Float_operator_double; cbn [cell].
    now autorewrite with cell_read.
Qed.

(** The integer -5, constructed without an engine argument over storage
    that held something else, with a default engine registered. *)
Lemma scalar_round_trip_witness :
  (@None Engine <> None \/
   finder {| finder := Some (mkEngine 9); journal := [] |} <> None) /\
  int_range (-5) /\
  exists v env',
    Value_int (-5) None (mkREBVAL (REB_OTHER 7) (2 ^ 64 - 1))
      {| finder := Some (mkEngine 9); journal := [] |} = (Returned v, env') /\
    isInteger v = true /\ Integer_operator_int v = -5.
Proof.
  assert (Havail : @None Engine <> None \/
    finder {| finder := Some (mkEngine 9); journal := [] |} <> None)
    by (right; cbn; discriminate).
  assert (Hrange : int_range (-5)) by (unfold int_range; lia).
  split; [exact Havail |]. split; [exact Hrange |].
  exact (proj1 (proj2 (scalar_round_trip None
    (mkREBVAL (REB_OTHER 7) (2 ^ 64 - 1))
    {| finder := Some (mkEngine 9); journal := [] |} Havail)) (-5) Hrange).
Defined.

End ValuesSpec.

(* ===================================================================== *)
(** ** Host-native failures                                                *)
(* ===================================================================== *)

Module ErrorsSpec.
Import Host Values Errors.

Lemma strip_prefix_app (p s : string) :
  strip_prefix p (p ++ s)%string = Some s.
Proof.
  induction p as [| a p IH]; cbn; [reflexivity |].
  now rewrite Ascii.eqb_refl.
Qed.

Lemma strip_last_app (c : ascii) (s : string) :
  strip_last c (s ++ String c EmptyString)%string = Some s.
Proof.
  induction s as [| a s IH]; cbn.
  - now rewrite Ascii.eqb_refl.
  - rewrite IH. destruct s; reflexivity.
Qed.

(** The digits [std_to_string] writes read back as the number. *)
Lemma std_to_string_read (n : Z) :
  option_map Z.of_int (NilZero.int_of_string (ExitCommand.std_to_string n))
  = Some n.
Proof.
  unfold ExitCommand.std_to_string.
  rewrite NilZero.isi.
  - cbn. f_equal. apply DecimalZ.of_to.
  - destruct n as [| q | q]; cbn; try discriminate.
    intros [= H]. now apply Unsigned.to_uint_nonnil in H.
  - destruct n as [| q | q]; cbn; try discriminate.
    intros [= H]. now apply Unsigned.to_uint_nonnil in H.
Qed.

(** C4: an [exit_command] constructed with the code [c] answers [c] to
    [code ()]; its description is "ren::exit_command(", the decimal digits
    of [c] and ")", and the number between the parentheses reads back as
    [c]. *)
Theorem exit_command_carries_code (c : Z) :
  ExitCommand.code (ExitCommand.make c) = c /\
  ExitCommand.what (ExitCommand.make c) =
    ("ren::exit_command(" ++ ExitCommand.std_to_string c ++ ")")%string /\
  embedded_code (what (thrown_exit_command (ExitCommand.make c))) = Some c /\
  held_code (thrown_exit_command (ExitCommand.make c)) = Some c.
Proof.
  split; [reflexivity |]. split; [reflexivity |]. split; [| reflexivity].
  unfold embedded_code. cbn [what ExitCommand.what ExitCommand.make
    ExitCommand.whatString].
  rewrite strip_prefix_app, strip_last_app.
  apply std_to_string_read.
Qed.

(** C5: an [evaluation_cancelled] has no data member, so any two are the
    same object, and as a thrown object it holds neither an Error value nor
    a code; its class is not [evaluation_error] and is not derived from it
    (nor the other way round), so a handler for [evaluation_error] does not
    take it while a handler for [std::exception] does; its description is
    the fixed string "ren::evaluation_cancelled". *)
Theorem evaluation_cancelled_no_payload
    (a b : EvaluationCancelled.evaluation_cancelled) :
  a = b /\
  held_error (thrown_evaluation_cancelled a) = None /\
  held_code (thrown_evaluation_cancelled a) = None /\
  what (thrown_evaluation_cancelled a) = "ren::evaluation_cancelled"%string /\
  exception_class_eqb (dynamic_class (thrown_evaluation_cancelled a))
    class_evaluation_error = false /\
  is_a class_evaluation_cancelled class_evaluation_error = false /\
  is_a class_evaluation_error class_evaluation_cancelled = false /\
  caught_by class_evaluation_error (thrown_evaluation_cancelled a) = false /\
  caught_by class_evaluation_cancelled (thrown_evaluation_cancelled a) = true /\
  caught_by class_std_exception (thrown_evaluation_cancelled a) = true.
Proof.
  destruct a, b. repeat split.
Qed.

Section Rendering.

Variable Runtime : Type.
Variable form : Runtime -> Value -> string.

(** C2: constructing an [evaluation_error] from an Error value calls
    [to_string] exactly once, on the copy it keeps, and stores the text;
    afterwards [what ()] returns that text and [error ()] returns the kept
    value in every state of the process, without calling [to_string] and
    whatever the interpreter would render by then. *)
Theorem evaluation_error_renders_once
    (err : Error) (p : EvaluationError.Process Runtime) :
  exists e : EvaluationError.evaluation_error,
    EvaluationError.make form err p =
      (Returned e,
       EvaluationError.mkProcess (EvaluationError.runtime p)
         (S (EvaluationError.to_string_calls p))) /\
    EvaluationError.errorValue e = err /\
    EvaluationError.whatString e = form (EvaluationError.runtime p) err /\
    forall p' : EvaluationError.Process Runtime,
      EvaluationError.what e p' =
        (Returned (form (EvaluationError.runtime p) err), p') /\
      EvaluationError.error e p' = (Returned err, p').
Proof.
  eexists. split; [reflexivity |]. repeat split.
Qed.

End Rendering.

End ErrorsSpec.

(* ===================================================================== *)
(** ** The standard IO device                                              *)
(* ===================================================================== *)

Module StdioSpec.
Import Host Stdio.

Section Commands.

Context {streams : HostStreams}.
Variable RDM_NULL : Z.
Variable RDF_OPEN : Z.
Variable RRF_OPEN : Z.


(** A read from a null device stores a zero byte at the head of the buffer,
    returns [DR_DONE] and leaves the device table and both streams alone;
    the [actual] member of the request is not assigned. *)
Lemma Read_IO_null (req : REBREQ) (rt : Runtime) :
  GET_FLAG (modes req) RDM_NULL = true ->
  Read_IO RDM_NULL req rt =
    (Returned (set_data req (<[0%nat := 0]> (data req)), DR_DONE), rt).
Proof. intros Hnull. unfold Read_IO. now rewrite Hnull. Qed.

Lemma Read_IO_null_actual (req req' : REBREQ) (r : DEVICE_CMD) (rt rt' : Runtime) :
  GET_FLAG (modes req) RDM_NULL = true ->
  Read_IO RDM_NULL req rt = (Returned (req', r), rt') ->
  actual req' = actual req.
Proof.
  intros Hnull Hrun. rewrite Read_IO_null in Hrun by assumption.
  now inversion Hrun.
Qed.

(** Outside null mode a read first resets [actual]: a request that comes
    back with [DR_DONE] reports the stream's count, and one that comes back
    with [DR_ERROR] reports zero. *)
Lemma Read_IO_stream_actual (req req' : REBREQ) (r : DEVICE_CMD) (rt rt' : Runtime) :
  GET_FLAG (modes req) RDM_NULL = false ->
  Read_IO RDM_NULL req rt = (Returned (req', r), rt') ->
  (r = DR_DONE /\
   actual req' = CInt.to_unsigned 32 (is_gcount (InputStream rt'))) \/
  (r = DR_ERROR /\ actual req' = 0).
Proof.
  intros Hnull. unfold Read_IO. rewrite Hnull.
  destruct (is_read (InputStream rt) _) as [input got].
  destruct (is_fail input); intros [= <- <- <-]; cbn; auto.
Qed.

(** Opening a closed device with a request in null mode marks both the
    device and the request, and the request stays in null mode. *)
Lemma Open_IO_keeps_null (req req' : REBREQ) (r : DEVICE_CMD) (rt rt' : Runtime) :
  GET_FLAG (modes req) RDM_NULL = true ->
  Open_IO RDM_NULL RDF_OPEN RRF_OPEN req rt = (Returned (req', r), rt') ->
  r = DR_DONE /\
  (modes req' = modes req \/ modes req' = SET_FLAG (modes req) RDM_NULL).
Proof.
  intros Hnull. unfold Open_IO, bind, the_device.
  destruct (if device req <? 0 then None else Devices rt !! Z.to_nat (device req))
    as [dev |]; [| discriminate].
  destruct (GET_FLAG (dev_flags dev) RDF_OPEN).
  - destruct (GET_FLAG (dev_flags dev) SF_DEV_NULL);
      intros [= <- <- <-]; cbn; auto.
  - rewrite Hnull. cbn. intros [= <- <- <-]. cbn. auto.
Qed.

(** C8: an echo-to-file open request, whatever the request and whatever the
    state of the device, leaves [Open_Echo] by the runtime_error that names
    the missing feature; it never returns a result.  The command table
    routes [RDC_CREATE] to it. *)
Theorem Open_Echo_always_throws (req : REBREQ) (rt : Runtime) :
  Open_Echo req rt =
    (Thrown (mk_runtime_error
       ("echo stdin and stdout to file not supported by binding in a direct "
        ++ "fashion, you have to create a stream aggregator object that does "
        ++ "it if you want that feature.")%string), rt) /\
  option_map (fun cmd => cmd req rt)
    (Dev_Cmds RDM_NULL RDF_OPEN RRF_OPEN RDC_CREATE) =
  Some (Open_Echo req rt).
Proof. split; reflexivity. Qed.

End Commands.

(** C6, as the code behaves: on a null device (mode bit 16) that was opened
    and written to with three bytes, the write returns [DR_DONE] with
    [actual = 3] and the following read returns [DR_DONE], stores a zero
    byte at the head of the buffer and touches neither stream, but the
    request still says [actual = 3]: the read does not report zero bytes. *)
Theorem null_read_keeps_stale_actual :
  let rt :=
    mkRuntime (streams := buffer_streams) [mkREBDEV 0]
      (mk_buffer_ostream [] 64 false)
      (mk_buffer_istream [104; 105] 0 false) in
  let req := mkREBREQ 0 0 (2 ^ 16) 0 [120; 121; 122; 7] 3 0 in
  (opened <- Open_IO 16 1 0 req ;;
   written <- Write_IO 16 (fst opened) ;;
   Read_IO 16 (fst written))%host rt =
  (Returned (mkREBREQ 0 1 (2 ^ 16) 0 [0; 121; 122; 7] 3 3, DR_DONE),
   mkRuntime (streams := buffer_streams) [mkREBDEV (2 ^ 31 + 2)]
     (mk_buffer_ostream [] 64 false)
     (mk_buffer_istream [104; 105] 0 false)).
Proof. vm_compute. reflexivity. Qed.

End StdioSpec.

(* ===================================================================== *)
(** ** Scalar values: type tests, truncation and the character paths       *)
(* ===================================================================== *)

Module ValuesMore.
Import CInt Cell Host Values CIntFacts CellFacts ValuesSpec.

(** The result of a signed conversion lies in the range of its type. *)
Lemma to_signed_range (w x : Z) :
  0 < w -> - 2 ^ (w - 1) <= to_signed w x < 2 ^ (w - 1).
Proof.
  intros Hw.
  assert (Hp : 0 < 2 ^ (w - 1)) by (apply Z.pow_pos_nonneg; lia).
  assert (H2 : 2 ^ w = 2 * 2 ^ (w - 1)).
  { replace w with (Z.succ (w - 1)) at 1 by lia. apply Z.pow_succ_r. lia. }
  pose proof (to_unsigned_range w x ltac:(lia)) as Hu.
  unfold to_signed. rewrite sign_bit by (assumption || lia).
  destruct (Z.leb_spec (2 ^ (w - 1)) (to_unsigned w x)); lia.
Qed.

(** A signed conversion gives zero exactly when the low bits are zero. *)
Lemma to_signed_zero (w x : Z) :
  0 < w -> (to_signed w x =? 0) = (to_unsigned w x =? 0).
Proof.
  intros Hw.
  assert (Hp : 0 < 2 ^ (w - 1)) by (apply Z.pow_pos_nonneg; lia).
  assert (H2 : 2 ^ w = 2 * 2 ^ (w - 1)).
  { replace w with (Z.succ (w - 1)) at 1 by lia. apply Z.pow_succ_r. lia. }
  pose proof (to_unsigned_range w x ltac:(lia)) as Hu.
  unfold to_signed. rewrite sign_bit by (assumption || lia).
  destruct (Z.leb_spec (2 ^ (w - 1)) (to_unsigned w x)); [| reflexivity].
  destruct (Z.eqb_spec (to_unsigned w x - 2 ^ w) 0),
           (Z.eqb_spec (to_unsigned w x) 0); lia || reflexivity.
Qed.

(** [VAL_INT32] and [VAL_LOGIC] see the same truth value in every cell. *)
Lemma to_bool_VAL_INT32 (c : REBVAL) :
  to_bool (VAL_INT32 c) = to_bool (VAL_LOGIC c).
Proof.
  unfold to_bool, VAL_INT32, VAL_INT64, VAL_LOGIC. f_equal.
  rewrite to_signed_zero by lia.
  now rewrite to_unsigned_to_signed by lia.
Qed.

(** With an engine at hand a constructor returns a bound value whose cell
    has the datatype and the payload of the argument. *)
Lemma construct_returns
    (a : scalar) (engine : option Engine) (raw : REBVAL) (env : Env) :
  engine <> None \/ finder env <> None ->
  exists c h env',
    construct a engine raw env =
      (Returned {| cell := c; origin := Some h |}, env') /\
    VAL_TYPE c = kind_of a /\
    payload_in (kind_of a) c = payload_of a.
Proof.
  intros Havail.
  destruct (tagged_cell a raw) as (c & Hk & Hp & Hrun).
  destruct (tag_then_bind_returns raw c engine env Havail) as (h & env' & Hr).
  exists c, h, env'. rewrite Hrun. auto.
Qed.

(** X1: the seven type tests exclude one another: on every value at most
    one of [isUnset], [isNone], [isLogic], [isCharacter], [isInteger],
    [isFloat] and [isDate] answers true. *)
Theorem type_tests_exclusive (v : Value) :
  (length (List.filter (fun b : bool => b)
     [isUnset v; isNone v; isLogic v; isCharacter v;
      isInteger v; isFloat v; isDate v]) <= 1)%nat.
Proof.
  unfold isUnset, isNone, isLogic, isCharacter, isInteger, isFloat, isDate,
    IS_UNSET, IS_NONE, IS_LOGIC, IS_CHAR, IS_INTEGER, IS_DECIMAL,
    IS_DATE, VAL_TYPE.
  destruct (header (cell v)); cbn; lia.
Qed.

(** X2: a value built by a scalar constructor answers true to the type test
    of its own datatype and false to the six others, whatever its storage
    held before; in particular it is never a date. *)
Theorem constructed_type_tests
    (a : scalar) (engine : option Engine) (raw : REBVAL) (env : Env) :
  engine <> None \/ finder env <> None ->
  exists v env',
    construct a engine raw env = (Returned v, env') /\
    [isUnset v; isNone v; isLogic v; isCharacter v;
     isInteger v; isFloat v; isDate v] =
    map (Reb_Kind_eqb (kind_of a))
      [REB_UNSET; REB_NONE; REB_LOGIC; REB_CHAR;
       REB_INTEGER; REB_DECIMAL; REB_DATE].
Proof.
  intros Havail.
  destruct (construct_returns a engine raw env Havail)
    as (c & h & env' & Hrun & Hk & _).
  eexists _, env'. split; [exact Hrun |].
  unfold isUnset, isNone, isLogic, isCharacter, isInteger, isFloat, isDate,
    IS_UNSET, IS_NONE, IS_LOGIC, IS_CHAR, IS_INTEGER, IS_DECIMAL,
    IS_DATE. cbn [cell]. rewrite Hk. reflexivity.
Qed.

(** A character built from ['A'] without an engine argument. *)
Lemma constructed_type_tests_witness :
  (@None Engine <> None \/
   finder {| finder := Some (mkEngine 9); journal := [] |} <> None) /\
  exists v env',
    construct (from_char 65) None (mkREBVAL REB_ERROR 77)
      {| finder := Some (mkEngine 9); journal := [] |} = (Returned v, env') /\
    [isUnset v; isNone v; isLogic v; isCharacter v;
     isInteger v; isFloat v; isDate v] =
    [false; false; false; true; false; false; false].
Proof.
  assert (Havail : @None Engine <> None \/
    finder {| finder := Some (mkEngine 9); journal := [] |} <> None)
    by (right; cbn; discriminate).
  split; [exact Havail |].
  exact (constructed_type_tests (from_char 65) None (mkREBVAL REB_ERROR 77)
    {| finder := Some (mkEngine 9); journal := [] |} Havail).
Defined.

(** X3: on every value, constructed by the binding or handed over by the
    runtime, [isTrue] is [isLogic] and [operator bool], and [isFalse] is
    [isLogic] and the negation of [operator bool]: reading the cell through
    [VAL_INT32] and through [VAL_LOGIC] gives the same truth value, whatever
    the upper half of the payload holds. *)
Theorem operator_bool_agrees_with_isTrue (v : Value) :
  isTrue v = isLogic v && Logic_operator_bool v /\
  isFalse v = isLogic v && negb (Logic_operator_bool v).
Proof.
  unfold isTrue, isFalse, Logic_operator_bool.
  now rewrite to_bool_VAL_INT32.
Qed.

(** X4: a value constructed from a [bool] answers that [bool] to [isTrue]
    and its negation to [isFalse]. *)
Theorem Value_bool_isTrue
    (b : bool) (engine : option Engine) (raw : REBVAL) (env : Env) :
  engine <> None \/ finder env <> None ->
  exists v env',
    Value_bool b engine raw env = (Returned v, env') /\
    isTrue v = b /\ isFalse v = negb b.
Proof.
  intros Havail.
  destruct (tag_then_bind_returns raw (SET_LOGIC raw (Z.b2z b)) engine env
              Havail) as (h & env' & Hrun).
  eexists _, env'. split; [exact Hrun |].
  unfold isTrue, isFalse, isLogic, IS_LOGIC. cbn [cell].
  autorewrite with cell_read. cbn. split; reflexivity.
Qed.

Lemma Value_bool_isTrue_witness :
  (Some (mkEngine 4) <> None \/
   finder {| finder := None; journal := [] |} <> None) /\
  exists v env',
    Value_bool false (Some (mkEngine 4)) (mkREBVAL REB_LOGIC (2 ^ 40 + 1))
      {| finder := None; journal := [] |} = (Returned v, env') /\
    isTrue v = false /\ isFalse v = negb false.
Proof.
  assert (Havail : Some (mkEngine 4) <> None \/
    finder {| finder := None; journal := [] |} <> None)
    by (left; discriminate).
  split; [exact Havail |].
  exact (Value_bool_isTrue false (Some (mkEngine 4))
    (mkREBVAL REB_LOGIC (2 ^ 40 + 1))
    {| finder := None; journal := [] |} Havail).
Defined.

(** X5: [Integer::operator int] has no range check.  Its result is always
    an [int] that agrees with the cell's 64-bit integer in the low 32 bits,
    and it is that integer exactly when the integer fits an [int]; a larger
    one comes back wrapped. *)
Theorem operator_int_truncates (v : Value) :
  int_range (Integer_operator_int v) /\
  to_unsigned 32 (Integer_operator_int v) = to_unsigned 32 (VAL_INT64 (cell v)) /\
  (Integer_operator_int v = VAL_INT64 (cell v)
   <-> int_range (VAL_INT64 (cell v))).
Proof.
  unfold Integer_operator_int, VAL_INT32.
  pose proof (to_signed_range 32 (VAL_INT64 (cell v)) ltac:(lia)) as Hr.
  split; [exact Hr |]. split.
  - apply to_unsigned_to_signed; lia.
  - split.
    + intros <-. exact Hr.
    + intros Hin. apply to_signed_small; [lia | exact Hin].
Qed.

(** X6: whenever [operator char] returns, its result is an ASCII code, it is
    the stored codepoint, and [operator wchar_t] and [codepoint] return the
    same number: the three extraction paths cannot disagree. *)
Theorem character_paths_agree (v : Value) (r : Z) :
  Character_operator_char v = Returned r ->
  0 <= r <= 127 /\
  VAL_CHAR (cell v) = r /\
  Character_operator_wchar_t v = Returned r /\
  Character_codepoint v = Returned r.
Proof.
  pose proof (VAL_CHAR_range (cell v)) as Hr. unfold REBUNI_range in Hr.
  unfold Character_operator_char, Character_operator_wchar_t,
    Character_codepoint, static_cast_char, static_cast_wchar_t, to_long.
  destruct (Z.gtb_spec (VAL_CHAR (cell v)) 127) as [Hgt | Hle];
    [discriminate |].
  rewrite !to_signed_small by lia.
  intros [= <-]. repeat split; lia.
Qed.

Lemma character_paths_agree_witness :
  Character_operator_char
    {| cell := SET_CHAR (mkREBVAL REB_END 0) 122; origin := Some 1 |}
    = Returned 122 /\
  0 <= 122 <= 127 /\
  VAL_CHAR (SET_CHAR (mkREBVAL REB_END 0) 122) = 122 /\
  Character_operator_wchar_t
    {| cell := SET_CHAR (mkREBVAL REB_END 0) 122; origin := Some 1 |}
    = Returned 122 /\
  Character_codepoint
    {| cell := SET_CHAR (mkREBVAL REB_END 0) 122; origin := Some 1 |}
    = Returned 122.
Proof.
  split; [reflexivity |].
  exact (character_paths_agree
    {| cell := SET_CHAR (mkREBVAL REB_END 0) 122; origin := Some 1 |} 122
    eq_refl).
Defined.

(** X7: a value constructed from a [char] holds the [char] converted to the
    16-bit codepoint type.  A non-negative [char] is stored as it is and
    [operator char] returns it; a negative [char] is stored as
    [65536 + c], a codepoint [operator char] refuses: such a value cannot be
    read back as the [char] it was made from. *)
Theorem Value_char_then_extract
    (c : Z) (engine : option Engine) (raw : REBVAL) (env : Env) :
  char_range c ->
  engine <> None \/ finder env <> None ->
  exists v env',
    Value_char c engine raw env = (Returned v, env') /\
    isCharacter v = true /\
    Character_codepoint v = Returned (if c <? 0 then 2 ^ 16 + c else c) /\
    Character_operator_char v =
      if c <? 0
      then Thrown (mk_runtime_error "Non-ASCII codepoint cast to char")
      else Returned c.
Proof.
  intros Hc Havail. unfold char_range in Hc.
  destruct (tag_then_bind_returns raw (SET_CHAR raw c) engine env Havail)
    as (h & env' & Hrun).
  eexists _, env'. split; [exact Hrun |]. split; [reflexivity |].
  assert (Hu : VAL_CHAR (SET_CHAR raw c) = if c <? 0 then 2 ^ 16 + c else c).
  { unfold VAL_CHAR, SET_CHAR. rewrite store_read by lia.
    rewrite to_unsigned_mod by lia.
    destruct (Z.ltb_spec c 0).
    - symmetry. apply (Z.mod_unique c (2 ^ 16) (-1)); lia.
    - apply Z.mod_small. lia. }
  unfold Character_codepoint, Character_operator_char, to_long,
    static_cast_char. cbn [cell]. rewrite Hu.
  destruct (Z.ltb_spec c 0).
  - rewrite to_signed_small by lia.
    destruct (Z.gtb_spec (2 ^ 16 + c) 127); [split; reflexivity | lia].
  - rewrite to_signed_small by lia.
    destruct (Z.gtb_spec c 127); [lia |].
    rewrite to_signed_small by lia. split; reflexivity.
Qed.

(** The Latin-1 byte 0xE9 is the [char] -23. *)
Lemma Value_char_then_extract_witness :
  char_range (-23) /\
  (Some (mkEngine 4) <> None \/
   finder {| finder := None; journal := [] |} <> None) /\
  exists v env',
    Value_char (-23) (Some (mkEngine 4)) (mkREBVAL REB_END 0)
      {| finder := None; journal := [] |} = (Returned v, env') /\
    isCharacter v = true /\
    Character_codepoint v = Returned 65513 /\
    Character_operator_char v =
      Thrown (mk_runtime_error "Non-ASCII codepoint cast to char").
Proof.
  assert (Hc : char_range (-23)) by (unfold char_range; lia).
  assert (Havail : Some (mkEngine 4) <> None \/
    finder {| finder := None; journal := [] |} <> None)
    by (left; discriminate).
  split; [exact Hc |]. split; [exact Havail |].
  exact (Value_char_then_extract (-23) (Some (mkEngine 4))
    (mkREBVAL REB_END 0) {| finder := None; journal := [] |} Hc Havail).
Defined.

(** X8: a value constructed from a [wchar_t] keeps the low 16 bits of it and
    nothing else: [operator wchar_t] and [codepoint] return [wc mod 65536],
    so a wide character outside the basic plane comes back as a different
    character, without a failure. *)
Theorem Value_wchar_t_then_extract
    (wc : Z) (engine : option Engine) (raw : REBVAL) (env : Env) :
  engine <> None \/ finder env <> None ->
  exists v env',
    Value_wchar_t wc engine raw env = (Returned v, env') /\
    isCharacter v = true /\
    Character_operator_wchar_t v = Returned (wc mod 2 ^ 16) /\
    Character_codepoint v = Returned (wc mod 2 ^ 16).
Proof.
  intros Havail.
  destruct (tag_then_bind_returns raw (SET_CHAR raw wc) engine env Havail)
    as (h & env' & Hrun).
  eexists _, env'. split; [exact Hrun |]. split; [reflexivity |].
  assert (Hu : VAL_CHAR (SET_CHAR raw wc) = wc mod 2 ^ 16).
  { unfold VAL_CHAR, SET_CHAR. rewrite store_read by lia.
    apply to_unsigned_mod. lia. }
  pose proof (Z.mod_pos_bound wc (2 ^ 16) ltac:(lia)) as Hb.
  unfold Character_operator_wchar_t, Character_codepoint,
    static_cast_wchar_t, to_long. cbn [cell]. rewrite Hu.
  rewrite !to_signed_small by lia. split; reflexivity.
Qed.

(** U+1F600 comes back as U+F600. *)
Lemma Value_wchar_t_then_extract_witness :
  (Some (mkEngine 4) <> None \/
   finder {| finder := None; journal := [] |} <> None) /\
  exists v env',
    Value_wchar_t 128512 (Some (mkEngine 4)) (mkREBVAL REB_END 0)
      {| finder := None; journal := [] |} = (Returned v, env') /\
    isCharacter v = true /\
    Character_operator_wchar_t v = Returned 62976 /\
    Character_codepoint v = Returned 62976.
Proof.
  assert (Havail : Some (mkEngine 4) <> None \/
    finder {| finder := None; journal := [] |} <> None)
    by (left; discriminate).
  split; [exact Havail |].
  exact (Value_wchar_t_then_extract 128512 (Some (mkEngine 4))
    (mkREBVAL REB_END 0) {| finder := None; journal := [] |} Havail).
Defined.

End ValuesMore.

(* ===================================================================== *)
(** ** Host-native failures: handlers and descriptions                     *)
(* ===================================================================== *)

Module ErrorsMore.
Import Host Values Errors ErrorsSpec.

(** X9: a handler takes a thrown object of the header's four classes
    exactly when it is a handler for the object's own class or for
    [std::exception]: every kind reaches a [std::exception] handler, and no
    kind is taken by the handler of another kind. *)
Theorem caught_by_own_class_or_base (handler : exception_class) (f : host_failure) :
  caught_by handler f = true <->
  handler = dynamic_class f \/ handler = class_std_exception.
Proof.
  destruct handler, f; cbn; split;
    solve [ intros; discriminate
          | intros; auto
          | intros [H | H]; discriminate H
          | intros [H | H]; reflexivity ].
Qed.

(** The description of an exit starts with its class name and an opening
    parenthesis. *)
Lemma exit_description_prefix (c : Z) :
  exists rest : string,
    what (thrown_exit_command (ExitCommand.make c)) =
    ("ren::exit_command(" ++ rest)%string.
Proof. eexists. reflexivity. Qed.

(** X10: the description tells the payload-free kinds and the exits apart:
    two exits have the same description exactly when they carry the same
    code, and the description of an exit is never that of a [has_no_value]
    or of an [evaluation_cancelled], which differ from each other as well. *)
Theorem descriptions_identify
    (c c' : Z) (n : HasNoValue.has_no_value)
    (k : EvaluationCancelled.evaluation_cancelled) :
  (what (thrown_exit_command (ExitCommand.make c)) =
   what (thrown_exit_command (ExitCommand.make c')) <-> c = c') /\
  what (thrown_exit_command (ExitCommand.make c))
    <> what (thrown_has_no_value n) /\
  what (thrown_exit_command (ExitCommand.make c))
    <> what (thrown_evaluation_cancelled k) /\
  what (thrown_has_no_value n) <> what (thrown_evaluation_cancelled k).
Proof.
  split.
  - split; [| now intros <-].
    intros Hsame.
    assert (H : embedded_code (what (thrown_exit_command (ExitCommand.make c)))
              = embedded_code (what (thrown_exit_command (ExitCommand.make c'))))
      by now rewrite Hsame.
    cbn [what ExitCommand.what ExitCommand.make ExitCommand.whatString] in H.
    unfold embedded_code in H.
    rewrite !strip_prefix_app, !strip_last_app, !std_to_string_read in H.
    now injection H.
  - destruct (exit_description_prefix c) as [rest Hrest].
    rewrite Hrest. cbn. repeat split; discriminate.
Qed.

End ErrorsMore.

(* ===================================================================== *)
(** ** The standard IO device: flags, opening and closing, transfers       *)
(* ===================================================================== *)

Module StdioMore.
Import CInt Host Stdio CIntFacts StdioSpec.

(** *** Flag words *)

Lemma testbit_flag (f n : Z) :
  0 <= n -> Z.testbit (Z.shiftl 1 f) n = (n =? f).
Proof.
  intros Hn. rewrite Z.shiftl_spec by assumption.
  change 1 with (2 ^ 0). rewrite Z.pow2_bits_eqb by lia.
  destruct (Z.eqb_spec 0 (n - f)), (Z.eqb_spec n f); lia || reflexivity.
Qed.

Lemma GET_FLAG_testbit (v f : Z) : 0 <= f -> GET_FLAG v f = Z.testbit v f.
Proof.
  intros Hf. unfold GET_FLAG.
  destruct (Z.testbit v f) eqn:Hb.
  - destruct (Z.eqb_spec (Z.land v (Z.shiftl 1 f)) 0) as [H0 | _]; [| reflexivity].
    assert (Hc : Z.testbit (Z.land v (Z.shiftl 1 f)) f = true)
      by (rewrite Z.land_spec, testbit_flag, Hb, Z.eqb_refl by lia; reflexivity).
    rewrite H0, Z.bits_0 in Hc. discriminate.
  - assert (H0 : Z.land v (Z.shiftl 1 f) = 0).
    { apply Z.bits_inj'. intros n Hn.
      rewrite Z.land_spec, testbit_flag, Z.bits_0 by lia.
      destruct (Z.eqb_spec n f) as [-> | _];
        [now rewrite Hb | apply andb_false_r]. }
    now rewrite H0.
Qed.

Lemma testbit_SET_FLAG (v f n : Z) :
  0 <= n ->
  Z.testbit (SET_FLAG v f) n = (n <? 32) && (Z.testbit v n || (n =? f)).
Proof.
  intros Hn. unfold SET_FLAG, to_unsigned.
  rewrite Z.land_spec, Z.lor_spec, testbit_flag, Z.testbit_ones_nonneg by lia.
  apply andb_comm.
Qed.

Lemma testbit_CLR_FLAG (v f n : Z) :
  0 <= n ->
  Z.testbit (CLR_FLAG v f) n = (n <? 32) && (Z.testbit v n && negb (n =? f)).
Proof.
  intros Hn. unfold CLR_FLAG, to_unsigned.
  rewrite Z.land_spec, Z.ldiff_spec, testbit_flag, Z.testbit_ones_nonneg by lia.
  apply andb_comm.
Qed.

Lemma testbit_to_unsigned_32 (v n : Z) :
  0 <= n -> Z.testbit (to_unsigned 32 v) n = (n <? 32) && Z.testbit v n.
Proof.
  intros Hn. unfold to_unsigned.
  rewrite Z.land_spec, Z.testbit_ones_nonneg by lia. apply andb_comm.
Qed.

(** Setting a flag makes it readable and keeps every flag that was set. *)
Lemma GET_SET_same (v f : Z) : 0 <= f < 32 -> GET_FLAG (SET_FLAG v f) f = true.
Proof.
  intros Hf. rewrite GET_FLAG_testbit, testbit_SET_FLAG by lia.
  rewrite Z.eqb_refl, orb_true_r.
  destruct (Z.ltb_spec f 32); [reflexivity | lia].
Qed.

Lemma GET_SET_keep (v f g : Z) :
  0 <= g < 32 -> GET_FLAG v g = true -> GET_FLAG (SET_FLAG v f) g = true.
Proof.
  intros Hg. rewrite !GET_FLAG_testbit, testbit_SET_FLAG by lia.
  intros ->. destruct (Z.ltb_spec g 32); [reflexivity | lia].
Qed.

Lemma GET_to_unsigned_32 (v g : Z) :
  0 <= g < 32 -> GET_FLAG (to_unsigned 32 v) g = GET_FLAG v g.
Proof.
  intros Hg. rewrite !GET_FLAG_testbit, testbit_to_unsigned_32 by lia.
  destruct (Z.ltb_spec g 32); [reflexivity | lia].
Qed.

(** Clearing a flag that was just set gives the word back when the flag was
    clear before and the word has 32 bits. *)
Lemma CLR_SET_restores (v f : Z) :
  0 <= v < 2 ^ 32 -> GET_FLAG v f = false -> CLR_FLAG (SET_FLAG v f) f = v.
Proof.
  intros Hv Hclear.
  apply Z.bits_inj'. intros n Hn.
  rewrite testbit_CLR_FLAG, testbit_SET_FLAG by lia.
  assert (Hhigh : 32 <= n -> Z.testbit v n = false).
  { intros Hge. rewrite <- (Z.mod_small v (2 ^ 32)) by lia.
    apply Z.mod_pow2_bits_high. lia. }
  destruct (Z.ltb_spec n 32) as [Hlt | Hge]; cbn.
  - destruct (Z.eqb_spec n f) as [-> | Hne]; cbn.
    + rewrite GET_FLAG_testbit in Hclear by lia. rewrite Hclear. reflexivity.
    + now rewrite orb_false_r, andb_true_r.
  - symmetry. now apply Hhigh.
Qed.

(** *** The commands *)

Section Commands.

Context {streams : HostStreams}.
Variable RDM_NULL : Z.
Variable RDF_OPEN : Z.
Variable RRF_OPEN : Z.

Lemma the_device_found (i : Z) (rt : Runtime) (dev : REBDEV) :
  0 <= i -> Devices rt !! Z.to_nat i = Some dev ->
  the_device i rt = (Returned dev, rt).
Proof.
  intros Hi Hdev. unfold the_device.
  destruct (Z.ltb_spec i 0); [lia |]. now rewrite Hdev.
Qed.

(** The first open of a device: the request is marked open, the device is
    marked open, and a request in null mode marks the device as null. *)
Lemma Open_IO_closed (req : REBREQ) (rt : Runtime) (dev : REBDEV) :
  0 <= device req ->
  Devices rt !! Z.to_nat (device req) = Some dev ->
  GET_FLAG (dev_flags dev) RDF_OPEN = false ->
  Open_IO RDM_NULL RDF_OPEN RRF_OPEN req rt =
  (Returned (set_flags req (SET_FLAG (flags req) RRF_OPEN), DR_DONE),
   {| Devices :=
        <[Z.to_nat (device req) :=
            {| dev_flags :=
                 SET_FLAG
                   (if GET_FLAG (modes req) RDM_NULL
                    then to_unsigned 32 (SET_FLAG (dev_flags dev) SF_DEV_NULL)
                    else dev_flags dev) RDF_OPEN |}]> (Devices rt);
      OutputStream := OutputStream rt;
      InputStream := InputStream rt |}).
Proof.
  intros Hi Hdev Hclosed. unfold Open_IO, bind.
  rewrite (the_device_found _ _ _ Hi Hdev), Hclosed.
  destruct (GET_FLAG (modes req) RDM_NULL); reflexivity.
Qed.

(** An open of a device that is open already: the device table is left
    alone, and the request inherits the null mode of the device. *)
Lemma Open_IO_open (req : REBREQ) (rt : Runtime) (dev : REBDEV) :
  0 <= device req ->
  Devices rt !! Z.to_nat (device req) = Some dev ->
  GET_FLAG (dev_flags dev) RDF_OPEN = true ->
  Open_IO RDM_NULL RDF_OPEN RRF_OPEN req rt =
  (Returned
     (set_flags
        (if GET_FLAG (dev_flags dev) SF_DEV_NULL
         then set_modes req (SET_FLAG (modes req) RDM_NULL)
         else req)
        (SET_FLAG (flags req) RRF_OPEN), DR_DONE), rt).
Proof.
  intros Hi Hdev Hopen. unfold Open_IO, bind.
  rewrite (the_device_found _ _ _ Hi Hdev), Hopen.
  destruct (GET_FLAG (dev_flags dev) SF_DEV_NULL); reflexivity.
Qed.

(** After any open the device of the request is marked open. *)
Lemma Open_IO_marks_device
    (req req1 : REBREQ) (r : DEVICE_CMD) (rt rt1 : Runtime) :
  0 <= RDF_OPEN < 32 ->
  Open_IO RDM_NULL RDF_OPEN RRF_OPEN req rt = (Returned (req1, r), rt1) ->
  r = DR_DONE /\ 0 <= device req /\ device req1 = device req /\
  exists dev1,
    Devices rt1 !! Z.to_nat (device req) = Some dev1 /\
    GET_FLAG (dev_flags dev1) RDF_OPEN = true.
Proof.
  intros Hbit Hrun.
  assert (Hfound : exists dev, 0 <= device req /\
            Devices rt !! Z.to_nat (device req) = Some dev).
  { unfold Open_IO, bind, the_device in Hrun.
    destruct (Z.ltb_spec (device req) 0); [discriminate |].
    destruct (Devices rt !! Z.to_nat (device req)) as [dev |];
      [eauto | discriminate]. }
  destruct Hfound as (dev & Hi & Hdev).
  destruct (GET_FLAG (dev_flags dev) RDF_OPEN) eqn:Hopen.
  - rewrite (Open_IO_open _ _ _ Hi Hdev Hopen) in Hrun.
    injection Hrun as <- <- <-.
    repeat split; [assumption | | eauto].
    destruct (GET_FLAG (dev_flags dev) SF_DEV_NULL); reflexivity.
  - rewrite (Open_IO_closed _ _ _ Hi Hdev Hopen) in Hrun.
    injection Hrun as <- <- <-.
    repeat split; [assumption |].
    eexists. cbn [Devices]. split.
    + apply list_lookup_insert_eq. now apply lookup_lt_Some in Hdev.
    + cbn [dev_flags]. now apply GET_SET_same.
Qed.

(** X11: a write returns [DR_DONE] or [DR_ERROR] and nothing else.  With
    [DR_DONE] the request reports its whole length as written, never a part
    of it; with [DR_ERROR] the device is not null, the output stream is bad,
    the error code is 1020 and the count of the request is left as it was.
    The buffer, the device table and the input stream are never touched. *)
Theorem Write_IO_all_or_error (req : REBREQ) (rt : Runtime) :
  0 <= length req < 2 ^ 32 ->
  exists req' r rt',
    Write_IO RDM_NULL req rt = (Returned (req', r), rt') /\
    Devices rt' = Devices rt /\ InputStream rt' = InputStream rt /\
    data req' = data req /\ modes req' = modes req /\
    flags req' = flags req /\ length req' = length req /\
    ((r = DR_DONE /\ actual req' = length req /\ error req' = error req) \/
     (r = DR_ERROR /\ error req' = 1020 /\ actual req' = actual req /\
      GET_FLAG (modes req) RDM_NULL = false /\
      os_not (OutputStream rt') = true)).
Proof.
  intros Hlen. unfold Write_IO.
  destruct (GET_FLAG (modes req) RDM_NULL) eqn:Hnull.
  - eexists _, _, _. split; [reflexivity |]. cbn. repeat split. left. auto.
  - destruct (os_not (os_write (OutputStream rt)
                (bytes (data req) (to_signed 32 (length req))))) eqn:Hbad.
    + eexists _, _, _. split; [reflexivity |]. cbn. repeat split.
      right. repeat split; assumption || reflexivity.
    + eexists _, _, _. split; [reflexivity |]. cbn. repeat split.
      left. repeat split. apply to_unsigned_small; lia.
Qed.

(** X12: outside null mode a read returns [DR_DONE] or [DR_ERROR] and always
    leaves a defined count: the stream's count of extracted bytes with
    [DR_DONE], and zero together with the error code 1020 when the stream
    reports failure.  The device table and the output stream are never
    touched. *)
Theorem Read_IO_counts (req : REBREQ) (rt : Runtime) :
  GET_FLAG (modes req) RDM_NULL = false ->
  exists req' r rt',
    Read_IO RDM_NULL req rt = (Returned (req', r), rt') /\
    Devices rt' = Devices rt /\ OutputStream rt' = OutputStream rt /\
    modes req' = modes req /\ flags req' = flags req /\
    length req' = length req /\
    ((r = DR_DONE /\ is_fail (InputStream rt') = false /\
      actual req' = to_unsigned 32 (is_gcount (InputStream rt')) /\
      error req' = error req) \/
     (r = DR_ERROR /\ is_fail (InputStream rt') = true /\
      actual req' = 0 /\ error req' = 1020)).
Proof.
  intros Hnull. unfold Read_IO. rewrite Hnull.
  destruct (is_read (InputStream rt) (to_signed 32 (length (set_actual req 0))))
    as [input got] eqn:Hread.
  destruct (is_fail input) eqn:Hfail.
  - eexists _, _, _. split; [reflexivity |]. cbn. repeat split.
    right. repeat split; assumption || reflexivity.
  - eexists _, _, _. split; [reflexivity |]. cbn. repeat split.
    left. repeat split; assumption || reflexivity.
Qed.



(** X15: opening a request and closing it again restores the flags of a
    request that was not open, but the device stays marked open: [Close_IO]
    clears the request's flag only and never touches the device table. *)
Theorem Open_IO_then_Close_IO
    (req req1 : REBREQ) (r : DEVICE_CMD) (rt rt1 : Runtime) :
  0 <= RDF_OPEN < 32 ->
  0 <= flags req < 2 ^ 32 ->
  GET_FLAG (flags req) RRF_OPEN = false ->
  Open_IO RDM_NULL RDF_OPEN RRF_OPEN req rt = (Returned (req1, r), rt1) ->
  exists req2 dev1,
    Close_IO RRF_OPEN req1 rt1 = (Returned (req2, DR_DONE), rt1) /\
    flags req2 = flags req /\
    Devices rt1 !! Z.to_nat (device req) = Some dev1 /\
    GET_FLAG (dev_flags dev1) RDF_OPEN = true.
Proof.
  intros Hbit Hflags Hclear Hrun.
  destruct (Open_IO_marks_device _ _ _ _ _ Hbit Hrun)
    as (_ & Hi & _ & dev1 & Hdev1 & Hopen1).
  assert (Hf1 : flags req1 = SET_FLAG (flags req) RRF_OPEN).
  { unfold Open_IO, bind, the_device in Hrun.
    destruct (Z.ltb_spec (device req) 0); [discriminate |].
    destruct (Devices rt !! Z.to_nat (device req)) as [dev |]; [| discriminate].
    destruct (GET_FLAG (dev_flags dev) RDF_OPEN).
    - destruct (GET_FLAG (dev_flags dev) SF_DEV_NULL);
        injection Hrun as <- _ _; reflexivity.
    - cbn in Hrun. injection Hrun as <- _ _. reflexivity. }
  eexists _, dev1. split; [reflexivity |].
  split; [| split; assumption].
  cbn [flags set_flags]. rewrite Hf1. now apply CLR_SET_restores.
Qed.

(** X16: no command of the table that takes a request ever clears a flag of
    a device: a device that is open stays open, and a device that is marked
    null stays marked null, through every open, close, read and write. *)
Theorem table_commands_keep_device_flags
    (cmd : RDC) (handler : REBREQ -> D (REBREQ * DEVICE_CMD))
    (req req' : REBREQ) (r : DEVICE_CMD) (rt rt' : Runtime)
    (j : nat) (dev : REBDEV) (g : Z) :
  Dev_Cmds RDM_NULL RDF_OPEN RRF_OPEN cmd = Some handler ->
  handler req rt = (Returned (req', r), rt') ->
  Devices rt !! j = Some dev ->
  0 <= g < 32 ->
  GET_FLAG (dev_flags dev) g = true ->
  exists dev',
    Devices rt' !! j = Some dev' /\ GET_FLAG (dev_flags dev') g = true.
Proof.
  intros Hcmd Hrun Hdev Hg Hset.
  assert (Hframe : Devices rt' = Devices rt -> exists dev',
            Devices rt' !! j = Some dev' /\ GET_FLAG (dev_flags dev') g = true).
  { intros ->. eauto. }
  destruct cmd; try discriminate; injection Hcmd as <-.
  - (* open *)
    unfold Open_IO, bind, the_device in Hrun.
    destruct (Z.ltb_spec (device req) 0); [discriminate |].
    destruct (Devices rt !! Z.to_nat (device req)) as [d |] eqn:Hd;
      [| discriminate].
    destruct (GET_FLAG (dev_flags d) RDF_OPEN).
    + apply Hframe.
      destruct (GET_FLAG (dev_flags d) SF_DEV_NULL);
        injection Hrun as _ _ <-; reflexivity.
    + cbn in Hrun. injection Hrun as _ _ <-. cbn [Devices].
      destruct (decide (Z.to_nat (device req) = j)) as [<- | Hne].
      * rewrite list_lookup_insert_eq by now apply lookup_lt_Some in Hd.
        eexists. split; [reflexivity |]. cbn [dev_flags].
        assert (d = dev) by congruence. subst d.
        apply GET_SET_keep; [assumption |].
        destruct (negb (GET_FLAG (modes req) RDM_NULL)); [assumption |].
        cbn [dev_flags]. rewrite GET_to_unsigned_32 by assumption.
        now apply GET_SET_keep.
      * rewrite list_lookup_insert_ne by assumption. eauto.
  - (* close *)
    apply Hframe. unfold Close_IO, ret in Hrun. now injection Hrun as _ _ <-.
  - (* read *)
    apply Hframe. unfold Read_IO in Hrun.
    destruct (GET_FLAG (modes req) RDM_NULL).
    + unfold ret in Hrun. now injection Hrun as _ _ <-.
    + destruct (is_read _ _) as [input got].
      destruct (is_fail input); injection Hrun as _ _ <-; reflexivity.
  - (* write *)
    apply Hframe. unfold Write_IO in Hrun.
    destruct (GET_FLAG (modes req) RDM_NULL).
    + unfold ret in Hrun. now injection Hrun as _ _ <-.
    + destruct (os_not _); injection Hrun as _ _ <-; reflexivity.
  - (* create *)
    discriminate.
Qed.

(** X17: [Quit_IO] returns [DR_DONE] and clears the open flag of the device
    and no other of its 32 flags; a device that was marked null is still
    marked null after it. *)
Theorem Quit_IO_clears_open_only (dev : REBDEV) (g : Z) :
  0 <= g < 32 ->
  snd (Quit_IO RDF_OPEN dev) = DR_DONE /\
  GET_FLAG (dev_flags (fst (Quit_IO RDF_OPEN dev))) g =
    if g =? RDF_OPEN then false else GET_FLAG (dev_flags dev) g.
Proof.
  intros Hg. split; [reflexivity |].
  unfold Quit_IO. cbn [fst dev_flags].
  rewrite GET_to_unsigned_32 by assumption.
  rewrite !GET_FLAG_testbit, testbit_CLR_FLAG by lia.
  destruct (Z.ltb_spec g 32); [| lia].
  destruct (g =? RDF_OPEN); cbn; [apply andb_false_r | apply andb_true_r].
Qed.


End Commands.

(** *** The theorems at work on buffer streams

    The mode bit of the null device is 16, the open flag of a device is 1
    and the open flag of a request is 0. *)

(** Two bytes for an output stream with room for one: the write fails. *)
Lemma Write_IO_all_or_error_witness :
  let req := mkREBREQ 0 0 0 0 [72; 105] 2 7 in
  let rt := mkRuntime (streams := buffer_streams) [mkREBDEV 0]
              (mk_buffer_ostream [] 1 false) (mk_buffer_istream [] 0 false) in
  0 <= length req < 2 ^ 32 /\
  exists req' r rt',
    Write_IO 16 req rt = (Returned (req', r), rt') /\
    Devices rt' = Devices rt /\ InputStream rt' = InputStream rt /\
    data req' = data req /\ modes req' = modes req /\
    flags req' = flags req /\ length req' = length req /\
    ((r = DR_DONE /\ actual req' = length req /\ error req' = error req) \/
     (r = DR_ERROR /\ error req' = 1020 /\ actual req' = actual req /\
      GET_FLAG (modes req) 16 = false /\
      os_not (OutputStream rt') = true)).
Proof.
  intros req rt.
  assert (Hlen : 0 <= length req < 2 ^ 32) by (cbn; lia).
  split; [exact Hlen |].
  exact (@Write_IO_all_or_error buffer_streams 16 req rt Hlen).
Defined.

(** Five bytes asked of an input stream that holds two: the read fails and
    reports no byte. *)
Lemma Read_IO_counts_witness :
  let req := mkREBREQ 0 0 0 0 [0; 0; 0; 0; 0] 5 9 in
  let rt := mkRuntime (streams := buffer_streams) [mkREBDEV 0]
              (mk_buffer_ostream [] 8 false)
              (mk_buffer_istream [104; 105] 0 false) in
  GET_FLAG (modes req) 16 = false /\
  exists req' r rt',
    Read_IO 16 req rt = (Returned (req', r), rt') /\
    Devices rt' = Devices rt /\ OutputStream rt' = OutputStream rt /\
    modes req' = modes req /\ flags req' = flags req /\
    length req' = length req /\
    ((r = DR_DONE /\ is_fail (InputStream rt') = false /\
      actual req' = CInt.to_unsigned 32 (is_gcount (InputStream rt')) /\
      error req' = error req) \/
     (r = DR_ERROR /\ is_fail (InputStream rt') = true /\
      actual req' = 0 /\ error req' = 1020)).
Proof.
  intros req rt.
  assert (Hmode : GET_FLAG (modes req) 16 = false) by reflexivity.
  split; [exact Hmode |].
  exact (@Read_IO_counts buffer_streams 16 req rt Hmode).
Defined.



Lemma Open_IO_then_Close_IO_witness :
  let req := mkREBREQ 0 6 0 0 [] 0 0 in
  let rt := mkRuntime (streams := buffer_streams) [mkREBDEV 0]
              (mk_buffer_ostream [] 8 false) (mk_buffer_istream [] 0 false) in
  let rt1 := mkRuntime (streams := buffer_streams) [mkREBDEV 2]
               (mk_buffer_ostream [] 8 false) (mk_buffer_istream [] 0 false) in
  (0 <= 1 < 32 /\ 0 <= flags req < 2 ^ 32 /\
   GET_FLAG (flags req) 0 = false /\
   Open_IO 16 1 0 req rt = (Returned (mkREBREQ 0 7 0 0 [] 0 0, DR_DONE), rt1)) /\
  exists req2 dev1,
    Close_IO 0 (mkREBREQ 0 7 0 0 [] 0 0) rt1 = (Returned (req2, DR_DONE), rt1) /\
    flags req2 = flags req /\
    Devices rt1 !! Z.to_nat (device req) = Some dev1 /\
    GET_FLAG (dev_flags dev1) 1 = true.
Proof.
  intros req rt rt1.
  assert (H1 : 0 <= 1 < 32) by lia.
  assert (H2 : 0 <= flags req < 2 ^ 32) by (cbn; lia).
  assert (H3 : GET_FLAG (flags req) 0 = false) by reflexivity.
  assert (H4 : Open_IO 16 1 0 req rt =
    (Returned (mkREBREQ 0 7 0 0 [] 0 0, DR_DONE), rt1)) by reflexivity.
  split; [exact (conj H1 (conj H2 (conj H3 H4))) |].
  exact (@Open_IO_then_Close_IO buffer_streams 16 1 0 req _ _ rt rt1
           H1 H2 H3 H4).
Defined.

(** A device that is open and marked null, through a close. *)
Lemma table_commands_keep_device_flags_witness :
  let req := mkREBREQ 0 1 0 0 [] 0 0 in
  let rt := mkRuntime (streams := buffer_streams) [mkREBDEV (2 ^ 31 + 2)]
              (mk_buffer_ostream [] 8 false) (mk_buffer_istream [] 0 false) in
  (Dev_Cmds 16 1 0 RDC_CLOSE = Some (Close_IO 0) /\
   Close_IO 0 req rt = (Returned (mkREBREQ 0 0 0 0 [] 0 0, DR_DONE), rt) /\
   Devices rt !! 0%nat = Some (mkREBDEV (2 ^ 31 + 2)) /\
   0 <= SF_DEV_NULL < 32 /\
   GET_FLAG (dev_flags (mkREBDEV (2 ^ 31 + 2))) SF_DEV_NULL = true) /\
  exists dev',
    Devices rt !! 0%nat = Some dev' /\
    GET_FLAG (dev_flags dev') SF_DEV_NULL = true.
Proof.
  intros req rt.
  assert (H1 : Dev_Cmds 16 1 0 RDC_CLOSE = Some (Close_IO 0)) by reflexivity.
  assert (H2 : Close_IO 0 req rt =
    (Returned (mkREBREQ 0 0 0 0 [] 0 0, DR_DONE), rt)) by reflexivity.
  assert (H3 : Devices rt !! 0%nat = Some (mkREBDEV (2 ^ 31 + 2)))
    by reflexivity.
  assert (H4 : 0 <= SF_DEV_NULL < 32) by (unfold SF_DEV_NULL; lia).
  assert (H5 : GET_FLAG (dev_flags (mkREBDEV (2 ^ 31 + 2))) SF_DEV_NULL = true)
    by reflexivity.
  split; [exact (conj H1 (conj H2 (conj H3 (conj H4 H5)))) |].
  exact (@table_commands_keep_device_flags buffer_streams 16 1 0 RDC_CLOSE
           _ req _ _ rt rt 0%nat _ SF_DEV_NULL H1 H2 H3 H4 H5).
Defined.

(** Quitting a device that is open and marked null. *)
Lemma Quit_IO_clears_open_only_witness :
  0 <= SF_DEV_NULL < 32 /\
  snd (Quit_IO 1 (mkREBDEV (2 ^ 31 + 2))) = DR_DONE /\
  GET_FLAG (dev_flags (fst (Quit_IO 1 (mkREBDEV (2 ^ 31 + 2))))) SF_DEV_NULL =
    if SF_DEV_NULL =? 1 then false
    else GET_FLAG (dev_flags (mkREBDEV (2 ^ 31 + 2))) SF_DEV_NULL.
Proof.
  assert (H : 0 <= SF_DEV_NULL < 32) by (unfold SF_DEV_NULL; lia).
  split; [exact H |].
  exact (Quit_IO_clears_open_only 1 (mkREBDEV (2 ^ 31 + 2)) SF_DEV_NULL H).
Defined.


End StdioMore.
